(** * bidirectional-infinite-scroll: the two-page window of
      [BidirectionalInfiniteScroll] (src/src/utils.ts)

    The component keeps five [useState] cells, of which three carry the
    logic ([visiblePages], [isLoading], [scrollToPage]); it derives
    [totalPages], [canLoadNext] and [canLoadPrev] from them on every
    render, and changes them from two asynchronous handlers
    ([loadNextPage], [loadPrevPage]), from the callbacks of two
    intersection observers and from the callback ref handed to
    [renderPage].  The source holds the component twice, once compact and
    once commented; the two copies agree statement for statement.

    The embedding is shallow: every constant and function of the component
    body is a Rocq definition of the same name; JavaScript numbers are a
    small inductive type with the non-finite values the code can produce;
    the [useState] cells are the fields of a record; a render is the record
    of the values its closures captured; and a handler suspended at its
    [await] is an entry of a list of waiting continuations. *)

From Stdlib Require Import ZArith List Bool Lia String DecimalString.
Import ListNotations.
Open Scope Z_scope.

(** ** JavaScript numbers and arrays, as far as the component uses them *)

Module JS.

(** A JavaScript number.  The component only ever adds and subtracts [1],
    multiplies by [pageSize] and takes [Math.ceil] of one quotient, so the
    numbers it manipulates are integers, the two infinities and [NaN].
    Integers are unbounded here; the code's are exact below [2^53], and an
    array length is below [2^32].  [-0] is identified with [0]: the code
    never divides by a computed zero nor inspects its sign. *)
Inductive num : Type :=
| Int (z : Z)
| PInf
| NInf
| NaN.

(** What an array read or a variable can hold: a number or [undefined]. *)
Inductive value : Type :=
| Num (n : num)
| Undefined.

(** [ToNumber]: [undefined] becomes [NaN]. *)
Definition to_num (v : value) : num :=
  match v with
  | Num n => n
  | Undefined => NaN
  end.

Definition neg (a : num) : num :=
  match a with
  | Int z => Int (- z)
  | PInf => NInf
  | NInf => PInf
  | NaN => NaN
  end.

(** [a + b] on numbers. *)
Definition add (a b : num) : num :=
  match a, b with
  | NaN, _ => NaN
  | _, NaN => NaN
  | Int x, Int y => Int (x + y)
  | PInf, NInf => NaN
  | NInf, PInf => NaN
  | PInf, _ => PInf
  | _, PInf => PInf
  | NInf, _ => NInf
  | _, NInf => NInf
  end.

(** [a - b]. *)
Definition sub (a b : num) : num := add a (neg b).

Definition sign_inf (positive : bool) : num :=
  if positive then PInf else NInf.

(** [a * b]: an infinity times zero is [NaN]. *)
Definition mul (a b : num) : num :=
  match a, b with
  | NaN, _ => NaN
  | _, NaN => NaN
  | Int x, Int y => Int (x * y)
  | Int x, PInf => if x =? 0 then NaN else sign_inf (0 <? x)
  | Int x, NInf => if x =? 0 then NaN else sign_inf (x <? 0)
  | PInf, Int y => if y =? 0 then NaN else sign_inf (0 <? y)
  | NInf, Int y => if y =? 0 then NaN else sign_inf (y <? 0)
  | PInf, PInf => PInf
  | NInf, NInf => PInf
  | PInf, NInf => NInf
  | NInf, PInf => NInf
  end.

(** The abstract relational comparison: [None] when an operand is [NaN]
    (every comparison is then false). *)
Definition cmp (a b : num) : option comparison :=
  match a, b with
  | NaN, _ => None
  | _, NaN => None
  | Int x, Int y => Some (x ?= y)
  | PInf, PInf => Some Eq
  | NInf, NInf => Some Eq
  | NInf, _ => Some Lt
  | _, PInf => Some Lt
  | PInf, _ => Some Gt
  | _, NInf => Some Gt
  end.

(** [a < b], [a > b], [a >= b]. *)
Definition lt (a b : num) : bool :=
  match cmp a b with Some Lt => true | _ => false end.

Definition gt (a b : num) : bool :=
  match cmp a b with Some Gt => true | _ => false end.

Definition ge (a b : num) : bool :=
  match cmp a b with Some Gt => true | Some Eq => true | _ => false end.

(** [a === b] on numbers: [NaN] is equal to nothing. *)
Definition num_eqb (a b : num) : bool :=
  match cmp a b with Some Eq => true | _ => false end.

(** [v === t] where [t] is a [number | null] ([None] is [null]):
    [undefined] and [null] are strictly equal to no number, and
    [undefined === null] is false. *)
Definition strict_eq (v : value) (t : option num) : bool :=
  match v, t with
  | Num a, Some b => num_eqb a b
  | _, _ => false
  end.

(** [Math.ceil(a / b)] for integers [a], [b].  The quotient of two
    integers need not be an integer, so the division and the rounding are
    one operation here: [x / 0] is [Infinity] for [x > 0], [-Infinity]
    for [x < 0] and [NaN] for [x = 0]; otherwise the ceiling of the exact
    quotient ([Z.div] rounds down whatever the sign of the divisor). *)
Definition ceil_div (a b : Z) : num :=
  if b =? 0 then
    (if a =? 0 then NaN else sign_inf (0 <? a))
  else Int (- ((- a) / b)).

(** [a.length] as a number. *)
Definition length {A : Type} (a : list A) : Z := Z.of_nat (List.length a).

(** [a[i]]: [undefined] outside the array. *)
Definition get (a : list value) (i : Z) : value :=
  if i <? 0 then Undefined else nth (Z.to_nat i) a Undefined.

(** The clamping of one argument of [Array.prototype.slice]: after
    [ToIntegerOrInfinity] ([NaN] becomes [0]), a negative index counts
    from the end, and the result is clamped to [0 .. len]. *)
Definition relative_index (len : Z) (n : num) : Z :=
  match n with
  | NaN => 0
  | NInf => 0
  | PInf => len
  | Int z => if z <? 0 then Z.max (len + z) 0 else Z.min z len
  end.

(** [a.slice(start, end)]: the elements from the clamped [start] up to,
    not including, the clamped [end]; empty when [end] is not after
    [start]. *)
Definition slice {A : Type} (a : list A) (start end_ : num) : list A :=
  let len := length a in
  let k := relative_index len start in
  let final := relative_index len end_ in
  firstn (Z.to_nat (final - k)) (skipn (Z.to_nat k) a).

(** How a call completes: normally with a value, or abruptly with a
    thrown error. *)
Inductive completion (A : Type) : Type :=
| Normal (a : A)
| Throw (message : string).

Arguments Normal {A} a.
Arguments Throw {A} message.

End JS.

Import JS.

(** ** The component *)

(** An element as the callback ref measures it. *)
Record Element : Type := mkElement {
  offsetTop : Z;
  clientHeight : Z
}.

(** [scrollWrapperRef.current]: the scroll container, with the one property
    the component writes.  The assignment to [scrollTop] is modelled as the
    code writes it; what the browser then does with an offset outside the
    scrollable range is not in the source. *)
Record Wrapper : Type := mkWrapper {
  wrapperOffsetTop : Z;
  scrollTop : Z
}.

(** The [useState] cells of one instance. *)
Record State : Type := mkState {
  visiblePages : list value;
  isLoading : bool;
  scrollToPage : option num;
  showTopOverlay : bool;
  showBottomOverlay : bool
}.

(** The continuation of a handler suspended at
    [await new Promise((res) => setTimeout(res, pageLoadDelay))]. *)
Inductive Pending : Type :=
| ResumeNext
| ResumePrev.

(** One mounted instance: the state cells, the values captured by the
    closures of the render whose observers are attached ([rendered]: the
    handlers read [isLoading], [canLoadNext] and [canLoadPrev] as constants
    of that render, not the cells), the handlers waiting on their timer, and
    the scroll container. *)
Record Instance : Type := mkInstance {
  state : State;
  rendered : State;
  pending : list Pending;
  scrollWrapper : option Wrapper
}.

(** One entry of [paginatedChunks]. *)
Record Chunk (T : Type) : Type := mkChunk {
  page : value;
  items : list T
}.

Arguments mkChunk {T} page items.
Arguments page {T} c.
Arguments items {T} c.

(** What [renderPage] receives for one chunk; [ref] is [None] for
    [undefined]. *)
Record Fragment (T : Type) : Type := mkFragment {
  fragmentItems : list T;
  fragmentPage : value;
  ref : option (option Element -> Instance -> Instance)
}.

Arguments mkFragment {T} fragmentItems fragmentPage ref.
Arguments fragmentItems {T} f.
Arguments fragmentPage {T} f.
Arguments ref {T} f.

(** The rendered tree, without its styling: the two loading indicators, the
    two overlays and the page fragments. *)
Record View (T : Type) : Type := mkView {
  topOverlay : bool;
  loadingPreviousShown : bool;
  fragments : list (Fragment T);
  loadingNextShown : bool;
  bottomOverlay : bool
}.

Arguments mkView {T} topOverlay loadingPreviousShown fragments loadingNextShown bottomOverlay.
Arguments topOverlay {T} v.
Arguments loadingPreviousShown {T} v.
Arguments fragments {T} v.
Arguments loadingNextShown {T} v.
Arguments bottomOverlay {T} v.

(** An intersection sensor firing, a handler's timer elapsing, or React
    committing a render ([layout] tells which element, if any, the caller's
    [renderPage] attached the ref of a page to). *)
Inductive Event : Type :=
| TopObserver (isIntersecting : bool)
| BottomObserver (isIntersecting : bool)
| Timer (i : nat)
| Commit (layout : value -> option Element).

Definition set_visiblePages (v : list value) (s : State) : State :=
  mkState v (isLoading s) (scrollToPage s) (showTopOverlay s) (showBottomOverlay s).

(** [setVisiblePages(updater)]: the component only calls it with a
    function of the previous value. *)
Definition setVisiblePages (updater : list value -> list value) (s : State) : State :=
  set_visiblePages (updater (visiblePages s)) s.

Definition setIsLoading (b : bool) (s : State) : State :=
  mkState (visiblePages s) b (scrollToPage s) (showTopOverlay s) (showBottomOverlay s).

Definition setScrollToPage (t : option num) (s : State) : State :=
  mkState (visiblePages s) (isLoading s) t (showTopOverlay s) (showBottomOverlay s).

Definition setShowTopOverlay (b : bool) (s : State) : State :=
  mkState (visiblePages s) (isLoading s) (scrollToPage s) b (showBottomOverlay s).

Definition setShowBottomOverlay (b : bool) (s : State) : State :=
  mkState (visiblePages s) (isLoading s) (scrollToPage s) (showTopOverlay s) b.

Definition with_state (f : State -> State) (c : Instance) : Instance :=
  mkInstance (f (state c)) (rendered c) (pending c) (scrollWrapper c).

Definition enqueue (p : Pending) (c : Instance) : Instance :=
  mkInstance (state c) (rendered c) (pending c ++ [p]) (scrollWrapper c).

(** [useState([0, 1])], [useState(false)], [useState(null)],
    [useState(false)], [useState(false)]. *)
Definition initialState : State :=
  mkState [Num (Int 0); Num (Int 1)] false None false false.

(** The instance after its first render, nothing in flight. *)
Definition mount (w : option Wrapper) : Instance :=
  mkInstance initialState initialState [] w.

Fixpoint remove_nth {A : Type} (i : nat) (l : list A) : list A :=
  match l, i with
  | [], _ => []
  | _ :: l', O => l'
  | x :: l', S i' => x :: remove_nth i' l'
  end.

Section BidirectionalInfiniteScroll.

Context {T : Type}.

(** The props the logic depends on.  [pageSize] (after its default, [20])
    is an integer of any sign; the type [number] also admits fractions,
    which the model leaves out.  [pageLoadDelay] only sets how long a timer
    takes, and [renderPage], the indicators and the class names only set
    what is drawn. *)
Variable data : list T.
Variable pageSize : Z.

(** [const totalPages = Math.ceil(data.length / pageSize)] *)
Definition totalPages : num := ceil_div (JS.length data) pageSize.

(** [const canLoadNext =
      visiblePages[visiblePages.length - 1] < totalPages - 1] *)
Definition canLoadNext (s : State) : bool :=
  lt (to_num (get (visiblePages s) (JS.length (visiblePages s) - 1)))
     (sub totalPages (Int 1)).

(** [const canLoadPrev = visiblePages[0] > 0] *)
Definition canLoadPrev (s : State) : bool :=
  gt (to_num (get (visiblePages s) 0)) (Int 0).

(** The updater [loadNextPage] passes to [setVisiblePages]:
    [(prev) => { const nextPage = prev[prev.length - 1] + 1;
                 if (nextPage >= totalPages) return prev;
                 return [prev[1], nextPage]; }] *)
Definition loadNextPage_updater (prev : list value) : list value :=
  let nextPage := add (to_num (get prev (JS.length prev - 1))) (Int 1) in
  if ge nextPage totalPages then prev
  else [get prev 1; Num nextPage].

(** The updater [loadPrevPage] passes to [setVisiblePages]; it calls
    [setScrollToPage] on its way, so it acts on both cells:
    [(prev) => { const prevPage = prev[0] - 1;
                 if (prevPage < 0) return prev;
                 setScrollToPage(prevPage + 1);
                 return [prevPage, prev[0]]; }] *)
Definition loadPrevPage_updater (s : State) : State :=
  let prev := visiblePages s in
  let prevPage := sub (to_num (get prev 0)) (Int 1) in
  if lt prevPage (Int 0) then s
  else set_visiblePages [Num prevPage; get prev 0]
         (setScrollToPage (Some (add prevPage (Int 1))) s).

(** [loadNextPage] up to its [await]: [if (isLoading) return;
    setIsLoading(true);], where [isLoading] is the constant of the render
    that created the handler. *)
Definition loadNextPage (c : Instance) : Instance :=
  if isLoading (rendered c) then c
  else enqueue ResumeNext (with_state (setIsLoading true) c).

(** [loadNextPage] after its [await]: [setVisiblePages(updater);
    setIsLoading(false);]. *)
Definition loadNextPage_resume (c : Instance) : Instance :=
  with_state
    (fun s => setIsLoading false (setVisiblePages loadNextPage_updater s))
    c.

(** [loadPrevPage] up to its [await]. *)
Definition loadPrevPage (c : Instance) : Instance :=
  if isLoading (rendered c) then c
  else enqueue ResumePrev (with_state (setIsLoading true) c).

(** [loadPrevPage] after its [await]. *)
Definition loadPrevPage_resume (c : Instance) : Instance :=
  with_state (fun s => setIsLoading false (loadPrevPage_updater s)) c.

(** The callback of [topObserver]:
    [setShowTopOverlay(!isAtTop);
     if (entry.isIntersecting && !isLoading && canLoadPrev)
       await loadPrevPage();]
    [isLoading] and [canLoadPrev] are those of the render whose effect
    created the observer.  (The effect returns early when a sentinel is not
    attached; both sentinels are part of every tree the component
    returns.) *)
Definition topObserver (isIntersecting : bool) (c : Instance) : Instance :=
  let isAtTop := isIntersecting in
  let c1 := with_state (setShowTopOverlay (negb isAtTop)) c in
  if isIntersecting && negb (isLoading (rendered c)) && canLoadPrev (rendered c)
  then loadPrevPage c1
  else c1.

(** The callback of [bottomObserver]. *)
Definition bottomObserver (isIntersecting : bool) (c : Instance) : Instance :=
  let isAtBottom := isIntersecting in
  let c1 := with_state (setShowBottomOverlay (negb isAtBottom)) c in
  if isIntersecting && negb (isLoading (rendered c)) && canLoadNext (rendered c)
  then loadNextPage c1
  else c1.

(** The timer of the [i]-th waiting handler elapses and the handler runs
    to its end.  Any waiting handler may be chosen, which covers the order
    in which equal delays elapse. *)
Definition timer (i : nat) (c : Instance) : Instance :=
  match nth_error (pending c) i with
  | None => c
  | Some p =>
      let c1 := mkInstance (state c) (rendered c)
                  (remove_nth i (pending c)) (scrollWrapper c) in
      match p with
      | ResumeNext => loadNextPage_resume c1
      | ResumePrev => loadPrevPage_resume c1
      end
  end.

(** [paginatedChunks]:
    [visiblePages.map((page) => { const start = page * pageSize;
       const end = start + pageSize;
       return { page, items: data.slice(start, end) }; })] *)
Definition paginatedChunks (s : State) : list (Chunk T) :=
  map (fun page =>
         let start := mul (to_num page) (Int pageSize) in
         let end_ := add start (Int pageSize) in
         mkChunk page (slice data start end_))
      (visiblePages s).

(** The callback ref given to the page that is the scroll target:
    [(el) => { if (el && scrollWrapperRef.current) {
        scrollWrapperRef.current.scrollTop =
          el.offsetTop - scrollWrapperRef.current.offsetTop
          + el.clientHeight;
        setScrollToPage(null); } }] *)
Definition anchorRef (el : option Element) (c : Instance) : Instance :=
  match el, scrollWrapper c with
  | Some e, Some w =>
      with_state (setScrollToPage None)
        (mkInstance (state c) (rendered c) (pending c)
           (Some (mkWrapper (wrapperOffsetTop w)
                    (offsetTop e - wrapperOffsetTop w + clientHeight e))))
  | _, _ => c
  end.

(** The component body: the derived constants and the returned tree.  No
    statement of it throws, so it always completes normally. *)
Definition BidirectionalInfiniteScroll (s : State) : completion (View T) :=
  Normal
    (mkView
       (showTopOverlay s)
       (isLoading s && canLoadPrev s)
       (map (fun ch =>
               let shouldScrollTo := strict_eq (page ch) (scrollToPage s) in
               mkFragment (items ch) (page ch)
                 (if shouldScrollTo then Some anchorRef else None))
            (paginatedChunks s))
       (isLoading s && canLoadNext s)
       (showBottomOverlay s)).

(** React attaches the ref of one fragment. *)
Definition attach (layout : value -> option Element)
    (c : Instance) (f : Fragment T) : Instance :=
  match ref f with
  | Some r => r (layout (fragmentPage f)) c
  | None => c
  end.

(** React renders the current state and commits: the observers now run
    the closures of this render (the effect's dependencies are exactly
    what they read), and the refs of the rendered fragments are called in
    order. *)
Definition commit (layout : value -> option Element) (c : Instance) : Instance :=
  match BidirectionalInfiniteScroll (state c) with
  | Normal v =>
      fold_left (attach layout) (fragments v)
        (mkInstance (state c) (state c) (pending c) (scrollWrapper c))
  | Throw _ => c
  end.

Definition step (c : Instance) (e : Event) : Instance :=
  match e with
  | TopObserver b => topObserver b c
  | BottomObserver b => bottomObserver b c
  | Timer i => timer i c
  | Commit layout => commit layout c
  end.

Definition run (es : list Event) (c : Instance) : Instance :=
  fold_left step es c.

End BidirectionalInfiniteScroll.

(** The array holding the two consecutive page indices [low], [low + 1]. *)
Definition window (low : Z) : list value :=
  [Num (Int low); Num (Int (low + 1))].

(** Whether a fragment was given a callback ref. *)
Definition has_ref {T : Type} (f : Fragment T) : bool :=
  match ref f with
  | Some _ => true
  | None => false
  end.

(** The state holds two consecutive page indices, the first one not
    negative. *)
Definition consecutive (s : State) : Prop :=
  exists low, 0 <= low /\ visiblePages s = window low.

(** ** The class-name helper [cn] *)

(** [type ClassValue =
      string | number | null | undefined | false | ClassValue[]] *)
#[warnings="-register-all"]
Inductive ClassValue : Type :=
| ClassString (s : string)
| ClassNumber (n : num)
| ClassNull
| ClassUndefined
| ClassFalse
| ClassArray (inputs : list ClassValue).

(** [String(n)] for a number: the decimal digits of an integer (the code's
    integer below [10^21]; larger ones print with an exponent), and the
    names of the non-finite values. *)
Definition number_to_string (n : num) : string :=
  match n with
  | Int z => NilZero.string_of_int (Z.to_int z)
  | PInf => "Infinity"%string
  | NInf => "-Infinity"%string
  | NaN => "NaN"%string
  end.

(** [!val]: the empty string, [0], [NaN], [null], [undefined] and [false]
    are falsy; an array is truthy, also when empty. *)
Definition falsy (val : ClassValue) : bool :=
  match val with
  | ClassString s => String.eqb s ""
  | ClassNumber (Int z) => z =? 0
  | ClassNumber NaN => true
  | ClassNumber _ => false
  | ClassNull => true
  | ClassUndefined => true
  | ClassFalse => true
  | ClassArray _ => false
  end.

(** The local function [process] of [cn], with the array [classes] it
    pushes to passed along:
    [(val) => { if (!val) return;
       if (typeof val === "string" || typeof val === "number") {
         classes.push(String(val));
       } else if (Array.isArray(val)) { val.forEach(process); } }] *)
Fixpoint process (val : ClassValue) (classes : list string) : list string :=
  if falsy val then classes
  else
    match val with
    | ClassString s => classes ++ [s]
    | ClassNumber n => classes ++ [number_to_string n]
    | ClassArray inputs =>
        fold_left (fun classes' v => process v classes') inputs classes
    | _ => classes
    end.

(** [cn(...inputs)]: [inputs.forEach(process); return classes.join(" ");] *)
Definition cn (inputs : list ClassValue) : string :=
  String.concat " "
    (fold_left (fun classes v => process v classes) inputs []).

(** The [className] of the scroll container:
    [cn("relative w-full max-h-[400px] overflow-y-auto",
        wrapperClassNames)] *)
Definition className (wrapperClassNames : string) : string :=
  cn [ClassString "relative w-full max-h-[400px] overflow-y-auto";
      ClassString wrapperClassNames].

(** The page indices [0 .. n - 1] as an array. *)
Definition all_pages (n : nat) : list value :=
  map (fun i => Num (Int (Z.of_nat i))) (seq 0 n).

(** The state of the window and of the scroll target that every step
    keeps when there are [t] pages: two consecutive indices, the second one
    a page unless the window is still the first one, and a target that is a
    page with a page before and a page after it. *)
Definition within (t : Z) (s : State) : Prop :=
  (exists low, visiblePages s = window low /\ 0 <= low /\
               (low = 0 \/ low + 1 < t)) /\
  (scrollToPage s = None \/
   exists p, scrollToPage s = Some (Int p) /\ 1 <= p /\ p + 1 < t).

(** ** Comparisons and slices on integers *)

Lemma lt_Int (x y : Z) : lt (Int x) (Int y) = (x <? y).
Proof.
  unfold lt, cmp, Z.ltb. destruct (x ?= y); reflexivity.
Qed.

Lemma gt_Int (x y : Z) : gt (Int x) (Int y) = (y <? x).
Proof.
  unfold gt, cmp, Z.ltb. rewrite (Z.compare_antisym x y).
  destruct (x ?= y); reflexivity.
Qed.

Lemma ge_Int (x y : Z) : ge (Int x) (Int y) = (y <=? x).
Proof.
  unfold ge, cmp, Z.leb. rewrite (Z.compare_antisym x y).
  destruct (x ?= y); reflexivity.
Qed.

Lemma In_remove_nth {A : Type} (x : A) (i : nat) (l : list A) :
  In x (remove_nth i l) -> In x l.
Proof.
  revert i. induction l as [| y l IH]; intros i H; [destruct i; exact H |].
  destruct i as [| i]; cbn in H.
  - right. exact H.
  - destruct H as [-> | H]; [left; reflexivity | right; exact (IH i H)].
Qed.

Lemma get_pair_0 (a b : value) : get [a; b] 0 = a.
Proof. reflexivity. Qed.

Lemma get_pair_1 (a b : value) : get [a; b] 1 = b.
Proof. reflexivity. Qed.

Lemma get_pair_last (a b : value) : get [a; b] (JS.length [a; b] - 1) = b.
Proof. reflexivity. Qed.

(** Reading the two cells of a two-element array and computing on the
    integers read. *)
Ltac read_pair :=
  rewrite ?get_pair_last, ?get_pair_1, ?get_pair_0;
  cbn [to_num add sub neg];
  rewrite ?ge_Int, ?lt_Int, ?gt_Int.

(** The bound test of the [loadNextPage] updater against the one of
    [canLoadNext]: [high + 1 >= t] is the negation of [high < t - 1] for
    every [t] but [NaN], for which both are false. *)
Lemma ge_succ_lt_pred (high : Z) (t : num) :
  t <> NaN ->
  ge (Int (high + 1)) t = negb (lt (Int high) (sub t (Int 1))).
Proof.
  intros Hnan. destruct t as [t | | |]; try reflexivity; [| contradiction].
  cbn [sub add neg]. rewrite ge_Int, lt_Int.
  destruct (Z.leb_spec t (high + 1)), (Z.ltb_spec high (t + - (1)));
    try reflexivity; lia.
Qed.

Lemma lt_pred_not_NaN (high : Z) (t : num) :
  lt (Int high) (sub t (Int 1)) = true -> t <> NaN.
Proof.
  intros H ->. discriminate H.
Qed.

(** [Math.ceil(len / pageSize)] is [NaN] only for an empty dataset cut into
    pages of size zero. *)
Lemma totalPages_NaN {T : Type} (data : list T) (pageSize : Z) :
  totalPages data pageSize = NaN <-> pageSize = 0 /\ data = [].
Proof.
  unfold totalPages, ceil_div, JS.length. split.
  - destruct (Z.eqb_spec pageSize 0) as [-> | Hp]; [| discriminate].
    destruct data as [| x data]; [intros _; split; reflexivity |].
    cbn [List.length]. destruct (Z.eqb_spec (Z.of_nat (S (List.length data))) 0); [lia |].
    unfold sign_inf. destruct (0 <? _); discriminate.
  - intros [-> ->]. reflexivity.
Qed.

(** With a positive page size [totalPages] is the integer ceiling of
    [len / pageSize]. *)
Lemma totalPages_pos {T : Type} (data : list T) (pageSize : Z) :
  0 < pageSize ->
  exists t, totalPages data pageSize = Int t /\
            (t - 1) * pageSize < JS.length data <= t * pageSize.
Proof.
  intros Hp. unfold totalPages, ceil_div.
  destruct (Z.eqb_spec pageSize 0); [lia |].
  set (len := JS.length data).
  exists (- (- len / pageSize)). split; [reflexivity |].
  pose proof (Z.div_mod (- len) pageSize ltac:(lia)) as Hdm.
  pose proof (Z.mod_pos_bound (- len) pageSize Hp) as Hb.
  nia.
Qed.

(** ** The window manager: [loadNextPage] and [loadPrevPage] *)

Section WindowManager.

Context {T : Type}.
Variable data : list T.
Variable pageSize : Z.

Lemma loadNextPage_updater_pair (low high : Z) :
  loadNextPage_updater data pageSize [Num (Int low); Num (Int high)]
  = if ge (Int (high + 1)) (totalPages data pageSize)
    then [Num (Int low); Num (Int high)]
    else [Num (Int high); Num (Int (high + 1))].
Proof.
  unfold loadNextPage_updater. read_pair. reflexivity.
Qed.

Lemma canLoadNext_pair (s : State) (low high : Z) :
  visiblePages s = [Num (Int low); Num (Int high)] ->
  canLoadNext data pageSize s
  = lt (Int high) (sub (totalPages data pageSize) (Int 1)).
Proof.
  intros Hw. unfold canLoadNext. rewrite Hw. read_pair. reflexivity.
Qed.

Lemma canLoadPrev_pair (s : State) (low high : Z) :
  visiblePages s = [Num (Int low); Num (Int high)] ->
  canLoadPrev s = (0 <? low).
Proof.
  intros Hw. unfold canLoadPrev. rewrite Hw. read_pair. reflexivity.
Qed.

Lemma loadPrevPage_updater_pair (s : State) (low high : Z) :
  visiblePages s = [Num (Int low); Num (Int high)] ->
  loadPrevPage_updater s
  = if low - 1 <? 0 then s
    else set_visiblePages [Num (Int (low - 1)); Num (Int low)]
           (setScrollToPage (Some (Int (low - 1 + 1))) s).
Proof.
  intros Hw. unfold loadPrevPage_updater. rewrite Hw. read_pair.
  reflexivity.
Qed.

Lemma loadNextPage_resume_state (c : Instance) :
  state (loadNextPage_resume data pageSize c)
  = setIsLoading false
      (set_visiblePages
         (loadNextPage_updater data pageSize (visiblePages (state c)))
         (state c)).
Proof. reflexivity. Qed.

Lemma loadPrevPage_resume_state (c : Instance) :
  state (loadPrevPage_resume c)
  = setIsLoading false (loadPrevPage_updater (state c)).
Proof. reflexivity. Qed.

(** The updater of [loadNextPage] against [canLoadNext], when the page
    count is a number. *)
Lemma loadNextPage_updater_numeric (s : State) (low high : Z) :
  totalPages data pageSize <> NaN ->
  visiblePages s = [Num (Int low); Num (Int high)] ->
  loadNextPage_updater data pageSize (visiblePages s)
  = if canLoadNext data pageSize s
    then [Num (Int high); Num (Int (high + 1))]
    else visiblePages s.
Proof.
  intros Hnan Hw.
  pose proof (loadNextPage_updater_pair low high) as Hupd.
  rewrite (ge_succ_lt_pred high _ Hnan) in Hupd.
  rewrite <- (canLoadNext_pair s low high Hw), <- Hw in Hupd.
  rewrite Hupd. destruct (canLoadNext data pageSize s); reflexivity.
Qed.

(** [canLoadNext] is false on every state when the page count is [NaN]. *)
Lemma canLoadNext_numeric (s : State) :
  canLoadNext data pageSize s = true -> totalPages data pageSize <> NaN.
Proof.
  unfold canLoadNext. intros H E. rewrite E in H.
  destruct (to_num _); discriminate H.
Qed.

(** What a step leaves of the list of waiting handlers. *)
Lemma attach_fragments_pending
    (layout : value -> option Element) (target : option num)
    (chunks : list (Chunk T)) (c : Instance) :
  pending
    (fold_left (attach layout)
       (map (fun ch =>
               mkFragment (items ch) (page ch)
                 (if strict_eq (page ch) target
                  then Some anchorRef else None))
            chunks)
       c)
  = pending c.
Proof.
  revert c. induction chunks as [| ch chunks IH]; intros c; [reflexivity |].
  cbn [map fold_left]. rewrite IH. unfold attach. cbn [ref fragmentPage].
  destruct (strict_eq (page ch) target); [| reflexivity].
  unfold anchorRef. destruct (layout (page ch)), (scrollWrapper c); reflexivity.
Qed.

Lemma commit_pending (layout : value -> option Element) (c : Instance) :
  pending (commit data pageSize layout c) = pending c.
Proof.
  unfold commit, BidirectionalInfiniteScroll. cbn [fragments].
  rewrite attach_fragments_pending. reflexivity.
Qed.

Lemma timer_pending (i : nat) (c : Instance) (p : Pending) :
  nth_error (pending c) i = Some p ->
  pending (timer data pageSize i c) = remove_nth i (pending c).
Proof.
  intros H. unfold timer. rewrite H. destruct p; reflexivity.
Qed.

(** A [loadNextPage] is only ever waiting in a configuration whose page
    count is a number: the bottom sensor starts it under [canLoadNext]. *)
Lemma step_next_numeric (c : Instance) (e : Event) :
  (In ResumeNext (pending c) -> totalPages data pageSize <> NaN) ->
  In ResumeNext (pending (step data pageSize c e)) ->
  totalPages data pageSize <> NaN.
Proof.
  intros IH. destruct e as [b | b | i | layout]; cbn [step].
  - unfold topObserver, loadPrevPage.
    destruct (b && negb (isLoading (rendered c)) && canLoadPrev (rendered c));
      cbn; [| exact IH].
    destruct (isLoading (rendered c)); cbn; [exact IH |].
    intros H. apply in_app_or in H. destruct H as [H | [H | []]];
      [exact (IH H) | discriminate H].
  - unfold bottomObserver, loadNextPage.
    destruct (b && negb (isLoading (rendered c))
              && canLoadNext data pageSize (rendered c)) eqn:Hcond;
      cbn; [| exact IH].
    intros _. apply andb_prop in Hcond.
    apply (canLoadNext_numeric (rendered c)), Hcond.
  - destruct (nth_error (pending c) i) as [p |] eqn:Hp.
    + rewrite (timer_pending i c p Hp). intros H. apply IH.
      eapply In_remove_nth. exact H.
    + unfold timer. rewrite Hp. exact IH.
  - rewrite commit_pending. exact IH.
Qed.

Lemma run_next_numeric (es : list Event) (c : Instance) :
  (In ResumeNext (pending c) -> totalPages data pageSize <> NaN) ->
  In ResumeNext (pending (run data pageSize es c)) ->
  totalPages data pageSize <> NaN.
Proof.
  revert c. induction es as [| e es IH]; intros c Hc; [exact Hc |].
  cbn [run fold_left]. apply IH. apply step_next_numeric. exact Hc.
Qed.

(** C1 (advance).  For every window [(low, high)]: when [canLoadNext] is
    false the updater of [loadNextPage] returns the window it was given and
    the handler ends having only cleared [isLoading]; when [canLoadNext] is
    true it returns [(high, high + 1)], whose indices are those of the old
    window without the old [low], together with [high + 1].

    This holds of the updater taken alone in every configuration whose page
    count is a number (first part), and of every [loadNextPage] that
    completes in any run of the component, whatever the configuration
    (second part). *)
Theorem loadNextPage_advances :
  (forall (s : State) (low high : Z),
     totalPages data pageSize <> NaN ->
     visiblePages s = [Num (Int low); Num (Int high)] ->
     (canLoadNext data pageSize s = false ->
        loadNextPage_updater data pageSize (visiblePages s) = visiblePages s /\
        forall c, state c = s ->
          loadNextPage_resume data pageSize c
          = with_state (setIsLoading false) c) /\
     (canLoadNext data pageSize s = true ->
        loadNextPage_updater data pageSize (visiblePages s)
          = [Num (Int high); Num (Int (high + 1))] /\
        (low <> high ->
         forall v,
           In v (loadNextPage_updater data pageSize (visiblePages s)) <->
           (In v (visiblePages s) /\ v <> Num (Int low)) \/
           v = Num (Int (high + 1))))) /\
  (forall (es : list Event) (w : option Wrapper) (i : nat) (low high : Z),
     let c := run data pageSize es (mount w) in
     nth_error (pending c) i = Some ResumeNext ->
     visiblePages (state c) = [Num (Int low); Num (Int high)] ->
     visiblePages (state (step data pageSize c (Timer i)))
     = if canLoadNext data pageSize (state c)
       then [Num (Int high); Num (Int (high + 1))]
       else [Num (Int low); Num (Int high)]).
Proof.
  split.
  - intros s low high Hnan Hw.
    pose proof (loadNextPage_updater_numeric s low high Hnan Hw) as Hupd.
    split; intros Hcan; rewrite Hcan in Hupd.
    + split; [exact Hupd |].
      intros c Hc. unfold loadNextPage_resume, with_state, setVisiblePages.
      rewrite Hc, Hupd. destruct s; reflexivity.
    + split; [exact Hupd |].
      intros Hne v. rewrite Hupd, Hw. cbn. split.
      * intros [<- | [<- | []]]; [left | right; reflexivity].
        split; [right; left; reflexivity |].
        intros E; injection E; intros; lia.
      * intros [[[<- | [<- | []]] Hv] | ->];
          [exfalso; apply Hv; reflexivity | left; reflexivity
          | right; left; reflexivity].
  - intros es w i low high c Hi Hw.
    assert (Hnan : totalPages data pageSize <> NaN).
    { apply (run_next_numeric es (mount w)); [intros [] |].
      apply (nth_error_In _ i). exact Hi. }
    cbn [step]. unfold timer. fold c. rewrite Hi.
    rewrite loadNextPage_resume_state.
    cbn [state setIsLoading set_visiblePages visiblePages].
    rewrite (loadNextPage_updater_numeric (state c) low high Hnan Hw), Hw.
    reflexivity.
Qed.

(** A [loadPrevPage] whose timer elapses, on any instance. *)
Lemma timer_ResumePrev (c : Instance) (i : nat) (low high : Z) :
  nth_error (pending c) i = Some ResumePrev ->
  visiblePages (state c) = [Num (Int low); Num (Int high)] ->
  visiblePages (state (step data pageSize c (Timer i)))
  = (if canLoadPrev (state c)
     then [Num (Int (low - 1)); Num (Int low)]
     else [Num (Int low); Num (Int high)]) /\
  scrollToPage (state (step data pageSize c (Timer i)))
  = (if canLoadPrev (state c) then Some (Int low)
     else scrollToPage (state c)) /\
  isLoading (state (step data pageSize c (Timer i))) = false /\
  pending (step data pageSize c (Timer i)) = remove_nth i (pending c).
Proof.
  intros Hi Hw. cbn [step]. unfold timer. rewrite Hi.
  rewrite loadPrevPage_resume_state. cbn [state pending loadPrevPage_resume with_state].
  rewrite (loadPrevPage_updater_pair _ low high Hw),
    (canLoadPrev_pair _ low high Hw).
  destruct (Z.ltb_spec (low - 1) 0), (Z.ltb_spec 0 low); try lia;
    cbn [setIsLoading set_visiblePages setScrollToPage
         visiblePages scrollToPage isLoading];
    repeat split; try assumption; repeat f_equal; lia.
Qed.

Lemma nth_error_last {A : Type} (l : list A) (x : A) :
  nth_error (l ++ [x]) (List.length l) = Some x.
Proof.
  induction l as [| y l IH]; [reflexivity | exact IH].
Qed.

Lemma remove_nth_last {A : Type} (l : list A) (x : A) :
  remove_nth (List.length l) (l ++ [x]) = l.
Proof.
  induction l as [| y l IH]; [reflexivity |]. cbn. rewrite IH. reflexivity.
Qed.

(** C2 (retreat).  For every window [(low, high)]: when [canLoadPrev] is
    false, retreating changes nothing; when it is true the window becomes
    [(low - 1, low)] and [scrollToPage] is set to the old [low], which is
    the second index of the new window.

    This holds of the updater taken alone (first part); of every
    [loadPrevPage] whose timer elapses, on every instance and so in every
    run (second part); and of [loadPrevPage] from its call to its end, when
    it is called from a render that is not loading and its timer is the
    next thing to happen: the handler then ends with [isLoading] false and
    nothing left waiting that was not waiting before (third part). *)
Theorem loadPrevPage_retreats :
  (forall (s : State) (low high : Z),
     visiblePages s = [Num (Int low); Num (Int high)] ->
     (canLoadPrev s = false -> loadPrevPage_updater s = s) /\
     (canLoadPrev s = true ->
        visiblePages (loadPrevPage_updater s)
          = [Num (Int (low - 1)); Num (Int low)] /\
        scrollToPage (loadPrevPage_updater s) = Some (Int low) /\
        get (visiblePages (loadPrevPage_updater s)) 1 = Num (Int low))) /\
  (forall (c : Instance) (i : nat) (low high : Z),
     nth_error (pending c) i = Some ResumePrev ->
     visiblePages (state c) = [Num (Int low); Num (Int high)] ->
     visiblePages (state (step data pageSize c (Timer i)))
     = (if canLoadPrev (state c)
        then [Num (Int (low - 1)); Num (Int low)]
        else [Num (Int low); Num (Int high)]) /\
     scrollToPage (state (step data pageSize c (Timer i)))
     = (if canLoadPrev (state c) then Some (Int low)
        else scrollToPage (state c)) /\
     isLoading (state (step data pageSize c (Timer i))) = false) /\
  (forall (c : Instance) (low high : Z),
     isLoading (rendered c) = false ->
     visiblePages (state c) = [Num (Int low); Num (Int high)] ->
     let c' := step data pageSize (loadPrevPage c)
                 (Timer (List.length (pending c))) in
     visiblePages (state c')
     = (if canLoadPrev (state c)
        then [Num (Int (low - 1)); Num (Int low)]
        else [Num (Int low); Num (Int high)]) /\
     scrollToPage (state c')
     = (if canLoadPrev (state c) then Some (Int low)
        else scrollToPage (state c)) /\
     isLoading (state c') = false /\
     pending c' = pending c).
Proof.
  split; [| split].
  - intros s low high Hw. unfold canLoadPrev, loadPrevPage_updater. rewrite Hw.
    read_pair.
    split; intros Hcan.
    + destruct (Z.ltb_spec (low + - (1)) 0); [reflexivity |].
      apply Z.ltb_ge in Hcan. lia.
    + apply Z.ltb_lt in Hcan.
      destruct (Z.ltb_spec (low + - (1)) 0); [lia |].
      cbn [visiblePages scrollToPage set_visiblePages setScrollToPage].
      split; [| split]; [repeat f_equal; lia .. | reflexivity].
  - intros c i low high Hi Hw.
    destruct (timer_ResumePrev c i low high Hi Hw) as (H1 & H2 & H3 & _).
    repeat split; assumption.
  - intros c low high Hload Hw c'. subst c'.
    assert (Hc : loadPrevPage c
                 = enqueue ResumePrev (with_state (setIsLoading true) c))
      by (unfold loadPrevPage; rewrite Hload; reflexivity).
    rewrite Hc.
    destruct (timer_ResumePrev
                (enqueue ResumePrev (with_state (setIsLoading true) c))
                (List.length (pending c)) low high)
      as (H1 & H2 & H3 & H4).
    + cbn [enqueue with_state pending]. apply nth_error_last.
    + exact Hw.
    + cbn [enqueue with_state pending] in H4. rewrite remove_nth_last in H4.
      repeat split; assumption.
Qed.

(** C10 (a dropped retreat).  When the first index of the window is [0]
    (or, for that matter, below it), [loadPrevPage] past its timer does
    nothing but clear [isLoading]: the window and [scrollToPage], like
    everything else of the instance, stay as they were. *)
Theorem loadPrevPage_resume_dropped (c : Instance) (low high : Z) :
  low <= 0 ->
  visiblePages (state c) = [Num (Int low); Num (Int high)] ->
  loadPrevPage_resume c = with_state (setIsLoading false) c /\
  visiblePages (state (loadPrevPage_resume c)) = visiblePages (state c) /\
  scrollToPage (state (loadPrevPage_resume c)) = scrollToPage (state c) /\
  isLoading (state (loadPrevPage_resume c)) = false.
Proof.
  intros Hlow Hw.
  assert (E : loadPrevPage_resume c = with_state (setIsLoading false) c).
  { unfold loadPrevPage_resume, with_state.
    rewrite (loadPrevPage_updater_pair _ low high Hw).
    destruct (Z.ltb_spec (low - 1) 0); [reflexivity | lia]. }
  rewrite E. repeat split.
Qed.

(** The two updaters keep the window a pair of consecutive indices. *)
Lemma loadNextPage_updater_consecutive (low : Z) :
  loadNextPage_updater data pageSize (window low) = window low \/
  loadNextPage_updater data pageSize (window low) = window (low + 1).
Proof.
  unfold window. rewrite loadNextPage_updater_pair.
  destruct (ge _ _); [left | right]; reflexivity.
Qed.

Lemma loadPrevPage_updater_consecutive (s : State) :
  consecutive s -> consecutive (loadPrevPage_updater s).
Proof.
  intros [low [Hlow Hw]].
  rewrite (loadPrevPage_updater_pair s low (low + 1) Hw).
  destruct (Z.ltb_spec (low - 1) 0).
  - exists low. split; assumption.
  - exists (low - 1). split; [lia |]. unfold window. cbn.
    repeat f_equal; lia.
Qed.

Lemma loadNextPage_resume_consecutive (c : Instance) :
  consecutive (state c) ->
  consecutive (state (loadNextPage_resume data pageSize c)).
Proof.
  intros [low [Hlow Hw]]. unfold loadNextPage_resume, with_state, consecutive.
  cbn. rewrite Hw.
  destruct (loadNextPage_updater_consecutive low) as [-> | ->];
    [exists low | exists (low + 1)]; split; try reflexivity; lia.
Qed.

Lemma loadPrevPage_resume_consecutive (c : Instance) :
  consecutive (state c) -> consecutive (state (loadPrevPage_resume c)).
Proof.
  intros H. apply loadPrevPage_updater_consecutive in H.
  destruct H as [low [Hlow Hw]]. exists low. split; [exact Hlow | exact Hw].
Qed.

(** Neither handler touches the window before its timer, and the callback
    ref never does. *)
Lemma loadNextPage_visiblePages (c : Instance) :
  visiblePages (state (loadNextPage c)) = visiblePages (state c).
Proof.
  unfold loadNextPage. destruct (isLoading (rendered c)); reflexivity.
Qed.

Lemma loadPrevPage_visiblePages (c : Instance) :
  visiblePages (state (loadPrevPage c)) = visiblePages (state c).
Proof.
  unfold loadPrevPage. destruct (isLoading (rendered c)); reflexivity.
Qed.

Lemma anchorRef_visiblePages (el : option Element) (c : Instance) :
  visiblePages (state (anchorRef el c)) = visiblePages (state c).
Proof.
  unfold anchorRef. destruct el, (scrollWrapper c); reflexivity.
Qed.

Lemma attach_fragments_visiblePages
    (layout : value -> option Element) (target : option num)
    (chunks : list (Chunk T)) (c : Instance) :
  visiblePages
    (state
       (fold_left (attach layout)
          (map (fun ch =>
                  mkFragment (items ch) (page ch)
                    (if strict_eq (page ch) target
                     then Some anchorRef else None))
               chunks)
          c))
  = visiblePages (state c).
Proof.
  revert c. induction chunks as [| ch chunks IH]; intros c; [reflexivity |].
  cbn [map fold_left]. rewrite IH. unfold attach. cbn [ref fragmentPage].
  destruct (strict_eq (page ch) target); [| reflexivity].
  apply anchorRef_visiblePages.
Qed.

Lemma commit_visiblePages (layout : value -> option Element) (c : Instance) :
  visiblePages (state (commit data pageSize layout c)) = visiblePages (state c).
Proof.
  unfold commit, BidirectionalInfiniteScroll. cbn [fragments].
  rewrite attach_fragments_visiblePages. reflexivity.
Qed.

Lemma step_consecutive (c : Instance) (e : Event) :
  consecutive (state c) -> consecutive (state (step data pageSize c e)).
Proof.
  intros H. destruct e as [b | b | i | layout]; cbn [step].
  - unfold topObserver.
    destruct (b && negb (isLoading (rendered c)) && canLoadPrev (rendered c));
      unfold consecutive; rewrite ?loadPrevPage_visiblePages; exact H.
  - unfold bottomObserver.
    destruct (b && negb (isLoading (rendered c))
              && canLoadNext data pageSize (rendered c));
      unfold consecutive; rewrite ?loadNextPage_visiblePages; exact H.
  - unfold timer. destruct (nth_error (pending c) i) as [[|] |]; [| | exact H].
    + apply loadNextPage_resume_consecutive. exact H.
    + apply loadPrevPage_resume_consecutive. exact H.
  - unfold consecutive. rewrite commit_visiblePages. exact H.
Qed.

Lemma run_consecutive (es : list Event) (c : Instance) :
  consecutive (state c) -> consecutive (state (run data pageSize es c)).
Proof.
  revert c. induction es as [| e es IH]; intros c H; [exact H |].
  cbn [run fold_left]. apply IH. apply step_consecutive. exact H.
Qed.

(** With at most two pages the window never leaves [(0, 1)]: no advance
    and no retreat succeeds. *)
Lemma few_pages_window_fixed (t : Z) (es : list Event) (w : option Wrapper) :
  totalPages data pageSize = Int t -> t <= 2 ->
  visiblePages (state (run data pageSize es (mount w))) = window 0.
Proof.
  intros Ht Hle.
  assert (Hstep : forall c e,
            visiblePages (state c) = window 0 ->
            visiblePages (state (step data pageSize c e)) = window 0).
  { intros c e H. destruct e as [b | b | i | layout]; cbn [step].
    - unfold topObserver.
      destruct (b && negb (isLoading (rendered c)) && canLoadPrev (rendered c));
        rewrite ?loadPrevPage_visiblePages; exact H.
    - unfold bottomObserver.
      destruct (b && negb (isLoading (rendered c))
                && canLoadNext data pageSize (rendered c));
        rewrite ?loadNextPage_visiblePages; exact H.
    - unfold timer. destruct (nth_error (pending c) i) as [[|] |]; [| | exact H].
      + rewrite loadNextPage_resume_state.
        cbn [state setIsLoading set_visiblePages visiblePages].
        rewrite H. unfold window. rewrite loadNextPage_updater_pair, Ht, ge_Int.
        destruct (Z.leb_spec t (0 + 1 + 1)); [reflexivity | lia].
      + rewrite loadPrevPage_resume_state.
        cbn [state]. rewrite (loadPrevPage_updater_pair _ 0 (0 + 1) H).
        cbn. exact H.
    - rewrite commit_visiblePages. exact H. }
  unfold run. generalize (eq_refl : visiblePages (state (mount w)) = window 0).
  generalize (mount w). induction es as [| e es IH]; intros c H; [exact H |].
  cbn [fold_left]. apply IH. apply Hstep. exact H.
Qed.

(** C3 (window invariant).  Whatever the sensors report, whichever timers
    elapse and whenever React commits, in any order and any number of
    times from the first render on, [visiblePages] is a pair
    [(low, high)] with [high = low + 1] (and [0 <= low]). *)
Theorem visiblePages_always_consecutive
    (es : list Event) (w : option Wrapper) :
  exists low high,
    visiblePages (state (run data pageSize es (mount w)))
      = [Num (Int low); Num (Int high)] /\
    high = low + 1 /\ 0 <= low.
Proof.
  destruct (run_consecutive es (mount w)) as [low [Hlow Hw]].
  - exists 0. split; [lia | reflexivity].
  - exists low, (low + 1). repeat split; assumption.
Qed.

(** C4 (advance, then retreat).  From a window [(low, low + 1)] on which
    [canLoadNext] holds, and [canLoadPrev] holds once [loadNextPage] has
    completed, a completed [loadPrevPage] brings [visiblePages] back to
    [(low, low + 1)]. *)
Theorem advance_then_retreat (c : Instance) (low : Z) :
  visiblePages (state c) = window low ->
  canLoadNext data pageSize (state c) = true ->
  canLoadPrev (state (loadNextPage_resume data pageSize c)) = true ->
  visiblePages
    (state (loadPrevPage_resume (loadNextPage_resume data pageSize c)))
  = visiblePages (state c).
Proof.
  intros Hw Hnext Hprev.
  rewrite (canLoadNext_pair _ low (low + 1) Hw) in Hnext.
  assert (Hadv : visiblePages (state (loadNextPage_resume data pageSize c))
                 = [Num (Int (low + 1)); Num (Int (low + 1 + 1))]).
  { rewrite loadNextPage_resume_state. cbn [setIsLoading set_visiblePages visiblePages].
    rewrite Hw. unfold window. rewrite loadNextPage_updater_pair.
    rewrite (ge_succ_lt_pred _ _ (lt_pred_not_NaN _ _ Hnext)), Hnext.
    reflexivity. }
  rewrite (canLoadPrev_pair _ _ _ Hadv) in Hprev. apply Z.ltb_lt in Hprev.
  rewrite loadPrevPage_resume_state, (loadPrevPage_updater_pair _ _ _ Hadv).
  destruct (Z.ltb_spec (low + 1 - 1) 0); [lia |].
  cbn [setIsLoading set_visiblePages setScrollToPage visiblePages].
  rewrite Hw. unfold window. repeat f_equal; lia.
Qed.

End WindowManager.

(** ** The slices: [paginatedChunks] *)

Section Slices.

Context {T : Type}.
Variable data : list T.
Variable pageSize : Z.

(** With a positive page size the [slice] of page [i >= 0] is the
    sub-list of at most [pageSize] items that starts at item
    [i * pageSize]: the clamping of [slice] only cuts what lies beyond the
    end of the data. *)
Lemma slice_page (i : Z) :
  0 < pageSize -> 0 <= i ->
  slice data (Int (i * pageSize)) (Int (i * pageSize + pageSize))
  = firstn (Z.to_nat pageSize) (skipn (Z.to_nat (i * pageSize)) data).
Proof.
  intros Hp Hi. unfold slice, relative_index, JS.length.
  set (len := List.length data).
  assert (Hs : 0 <= i * pageSize) by nia.
  destruct (Z.ltb_spec (i * pageSize) 0); [lia |].
  destruct (Z.ltb_spec (i * pageSize + pageSize) 0); [lia |].
  destruct (Z_lt_le_dec (i * pageSize) (Z.of_nat len)) as [Hin | Hout].
  - rewrite (Z.min_l (i * pageSize)) by lia.
    set (k := Z.to_nat (i * pageSize)).
    assert (Hk : List.length (skipn k data) = (len - k)%nat)
      by apply length_skipn.
    destruct (Z_le_gt_dec (i * pageSize + pageSize) (Z.of_nat len)).
    + rewrite Z.min_l by lia. f_equal. lia.
    + rewrite Z.min_r by lia.
      rewrite (firstn_all2 (n := Z.to_nat pageSize)) by (rewrite Hk; lia).
      apply firstn_all2. rewrite Hk. lia.
  - rewrite !Z.min_r by lia. rewrite Z.sub_diag.
    rewrite (skipn_all2 (n := Z.to_nat (i * pageSize))) by (fold len; lia).
    rewrite firstn_nil. reflexivity.
Qed.

(** A page index at or past [totalPages] has no items. *)
Lemma slice_past_totalPages (i t : Z) :
  0 < pageSize -> totalPages data pageSize = Int t -> t <= i ->
  slice data (Int (i * pageSize)) (Int (i * pageSize + pageSize)) = [].
Proof.
  intros Hp Ht Hi.
  destruct (totalPages_pos data pageSize Hp) as [t' [Ht' [_ Hub]]].
  rewrite Ht in Ht'. injection Ht' as <-.
  assert (0 <= JS.length data) by (unfold JS.length; lia).
  assert (0 <= t) by nia.
  rewrite slice_page by lia.
  rewrite skipn_all2; [apply firstn_nil |].
  unfold JS.length in *. nia.
Qed.

(** C7, as the code has it.  [paginatedChunks] has exactly one entry for
    every index of [visiblePages], in order: the list is never clipped.
    With a positive page size and a window [(low, low + 1)], [0 <= low],
    each index is paired with the items [index * pageSize] up to
    [index * pageSize + pageSize] of the data, and an entry whose index is
    not below [totalPages] is there with no items. *)
Theorem paginatedChunks_one_per_index (s : State) :
  map page (paginatedChunks data pageSize s) = visiblePages s /\
  (forall low : Z,
     0 < pageSize -> 0 <= low ->
     visiblePages s = window low ->
     paginatedChunks data pageSize s
     = [ mkChunk (Num (Int low))
           (firstn (Z.to_nat pageSize)
              (skipn (Z.to_nat (low * pageSize)) data));
         mkChunk (Num (Int (low + 1)))
           (firstn (Z.to_nat pageSize)
              (skipn (Z.to_nat ((low + 1) * pageSize)) data)) ] /\
     (forall t ch i,
        totalPages data pageSize = Int t ->
        In ch (paginatedChunks data pageSize s) ->
        page ch = Num (Int i) -> t <= i ->
        items ch = [])).
Proof.
  split.
  { unfold paginatedChunks. rewrite map_map. cbn [page]. apply map_id. }
  intros low Hp Hlow Hw.
  assert (E : paginatedChunks data pageSize s
              = [ mkChunk (Num (Int low))
                    (slice data (Int (low * pageSize))
                       (Int (low * pageSize + pageSize)));
                  mkChunk (Num (Int (low + 1)))
                    (slice data (Int ((low + 1) * pageSize))
                       (Int ((low + 1) * pageSize + pageSize))) ]).
  { unfold paginatedChunks. rewrite Hw. reflexivity. }
  split.
  - rewrite E, !slice_page by lia. reflexivity.
  - intros t ch i Ht Hin Hpage Hti. rewrite E in Hin.
    destruct Hin as [<- | [<- | []]]; cbn [page items] in *;
      injection Hpage as <-; apply (slice_past_totalPages _ t); assumption.
Qed.

(** With pages of size zero every slice is empty, whatever the page. *)
Lemma slice_zero_pageSize (v : value) :
  slice data (mul (to_num v) (Int 0)) (add (mul (to_num v) (Int 0)) (Int 0))
  = [].
Proof.
  assert (H : mul (to_num v) (Int 0) = Int 0 \/ mul (to_num v) (Int 0) = NaN).
  { destruct v as [[z | | |] |]; cbn; auto.
    left. f_equal. lia. }
  unfold slice. destruct H as [-> | ->]; cbn [add relative_index];
    cbn; rewrite ?Z.sub_diag; reflexivity.
Qed.

(** C6, as the code has it.  A page size that is zero or negative is not
    rejected: the component body completes normally on every state.  With
    [pageSize = 0] every page it produces has no items and, the data not
    being empty, [totalPages] is [Infinity], so that [canLoadNext] holds
    on every window of integers. *)
Theorem nonpositive_pageSize_accepted (s : State) :
  pageSize <= 0 ->
  (exists v, BidirectionalInfiniteScroll data pageSize s = Normal v /\
             map fragmentPage (fragments v) = visiblePages s) /\
  (pageSize = 0 ->
     (forall ch, In ch (paginatedChunks data pageSize s) -> items ch = []) /\
     (data <> [] ->
        totalPages data pageSize = PInf /\
        forall low high,
          visiblePages s = [Num (Int low); Num (Int high)] ->
          canLoadNext data pageSize s = true)).
Proof.
  intros Hp. split.
  - eexists. split; [reflexivity |]. cbn [fragments].
    unfold paginatedChunks. rewrite !map_map. cbn [fragmentPage page].
    apply map_id.
  - intros ->. split.
    + unfold paginatedChunks. intros ch Hin.
      apply in_map_iff in Hin. destruct Hin as [v [<- _]].
      cbn [items]. apply slice_zero_pageSize.
    + intros Hne.
      assert (Ht : totalPages data 0 = PInf).
      { unfold totalPages, ceil_div, JS.length. destruct data; [contradiction |].
        reflexivity. }
      split; [exact Ht |].
      intros low high Hw. rewrite (canLoadNext_pair _ _ _ low high Hw), Ht.
      reflexivity.
Qed.

(** C8, as the code has it.  Whatever the data and the page size, the
    first render shows the window [(0, 1)], nothing in flight and no
    scroll target; the number of pages plays no part in it. *)
Theorem initial_window (w : option Wrapper) :
  visiblePages (state (mount w)) = [Num (Int 0); Num (Int 1)] /\
  (exists v,
     BidirectionalInfiniteScroll data pageSize (state (mount w)) = Normal v /\
     map fragmentPage (fragments v) = [Num (Int 0); Num (Int 1)]) /\
  isLoading (state (mount w)) = false /\
  scrollToPage (state (mount w)) = None /\
  pending (mount w) = [].
Proof.
  repeat split. eexists. split; reflexivity.
Qed.

End Slices.

(** ** The scroll anchor: the callback ref *)

Section ScrollAnchor.

Context {T : Type}.
Variable data : list T.
Variable pageSize : Z.

(** The fragments of a window of two integer pages. *)
Lemma fragments_window (s : State) (low : Z) :
  visiblePages s = window low ->
  exists items0 items1,
    BidirectionalInfiniteScroll data pageSize s
    = Normal
        (mkView (showTopOverlay s)
           (isLoading s && canLoadPrev s)
           [ mkFragment items0 (Num (Int low))
               (if strict_eq (Num (Int low)) (scrollToPage s)
                then Some anchorRef else None);
             mkFragment items1 (Num (Int (low + 1)))
               (if strict_eq (Num (Int (low + 1))) (scrollToPage s)
                then Some anchorRef else None) ]
           (isLoading s && canLoadNext data pageSize s)
           (showBottomOverlay s)).
Proof.
  intros Hw. unfold BidirectionalInfiniteScroll, paginatedChunks.
  rewrite Hw. cbn [window map page items]. eauto.
Qed.

Lemma strict_eq_Int (i p : Z) :
  strict_eq (Num (Int i)) (Some (Int p)) = (i =? p).
Proof.
  unfold strict_eq, num_eqb, cmp.
  destruct (Z.eqb_spec i p) as [-> | Hne].
  - rewrite Z.compare_refl. reflexivity.
  - destruct (Z.compare_spec i p); [contradiction | reflexivity ..].
Qed.

(** With no scroll target no fragment gets a ref, and a commit changes
    nothing but the closures in use. *)
Lemma commit_without_target (layout : value -> option Element) (c : Instance) :
  scrollToPage (state c) = None ->
  commit data pageSize layout c
  = mkInstance (state c) (state c) (pending c) (scrollWrapper c).
Proof.
  intros Hnone. unfold commit, BidirectionalInfiniteScroll. cbn [fragments].
  rewrite Hnone.
  generalize (mkInstance (state c) (state c) (pending c) (scrollWrapper c)).
  induction (paginatedChunks data pageSize (state c)) as [| ch chunks IH];
    intros c0; [reflexivity |].
  cbn [map fold_left]. unfold attach at 2. cbn [ref].
  replace (strict_eq (page ch) None) with false
    by (destruct (page ch); reflexivity).
  apply IH.
Qed.

Lemma commits_without_target
    (layouts : list (value -> option Element)) (c : Instance) :
  scrollToPage (state c) = None ->
  scrollWrapper
    (fold_left (fun c0 layout => commit data pageSize layout c0) layouts c)
  = scrollWrapper c /\
  state (fold_left (fun c0 layout => commit data pageSize layout c0) layouts c)
  = state c.
Proof.
  revert c. induction layouts as [| layout layouts IH]; intros c Hnone;
    [split; reflexivity |].
  cbn [fold_left]. rewrite (commit_without_target layout c Hnone).
  destruct (IH (mkInstance (state c) (state c) (pending c) (scrollWrapper c))
              Hnone) as [-> ->].
  split; reflexivity.
Qed.

(** C9 (scroll correction).  Let the window be [(low, low + 1)], the
    scroll target one of its two pages, the scroll container attached,
    and let the caller attach the ref of the target page to an element
    [el].  Then exactly one fragment of the render carries a ref; the
    commit sets [scrollTop] to [el.offsetTop] minus the container's
    [offsetTop], plus [el.clientHeight], and clears the target; and no
    later commit, whatever is mounted, moves [scrollTop] again or sets a
    target. *)
Theorem scroll_anchor_corrected_once
    (c : Instance) (low p : Z) (w : Wrapper) (el : Element)
    (layout : value -> option Element) :
  visiblePages (state c) = window low ->
  scrollToPage (state c) = Some (Int p) ->
  p = low \/ p = low + 1 ->
  scrollWrapper c = Some w ->
  layout (Num (Int p)) = Some el ->
  (exists v,
     BidirectionalInfiniteScroll data pageSize (state c) = Normal v /\
     List.length (filter has_ref (fragments v)) = 1%nat) /\
  scrollWrapper (commit data pageSize layout c)
  = Some (mkWrapper (wrapperOffsetTop w)
            (offsetTop el - wrapperOffsetTop w + clientHeight el)) /\
  scrollToPage (state (commit data pageSize layout c)) = None /\
  forall layouts,
    let c' := fold_left (fun c0 l => commit data pageSize l c0) layouts
                (commit data pageSize layout c) in
    scrollWrapper c' = scrollWrapper (commit data pageSize layout c) /\
    scrollToPage (state c') = None.
Proof.
  intros Hw Htarget Hp Hwrap Hel.
  destruct (fragments_window (state c) low Hw) as [items0 [items1 Hview]].
  rewrite Htarget, !strict_eq_Int in Hview.
  assert (Hcommit :
    commit data pageSize layout c
    = mkInstance (setScrollToPage None (state c)) (state c) (pending c)
        (Some (mkWrapper (wrapperOffsetTop w)
                 (offsetTop el - wrapperOffsetTop w + clientHeight el)))).
  { unfold commit. rewrite Hview. cbn [fragments fold_left].
    destruct Hp as [-> | ->].
    - rewrite Z.eqb_refl.
      destruct (Z.eqb_spec (low + 1) low); [lia |].
      unfold attach. cbn [ref fragmentPage]. rewrite Hel.
      unfold anchorRef. cbn [scrollWrapper]. rewrite Hwrap. reflexivity.
    - rewrite Z.eqb_refl.
      destruct (Z.eqb_spec low (low + 1)); [lia |].
      unfold attach. cbn [ref fragmentPage]. rewrite Hel.
      unfold anchorRef. cbn [scrollWrapper]. rewrite Hwrap. reflexivity. }
  split; [| split; [| split]].
  - eexists. split; [exact Hview |]. cbn [fragments filter].
    unfold has_ref. cbn [ref].
    destruct Hp as [-> | ->]; rewrite Z.eqb_refl;
      [destruct (Z.eqb_spec (low + 1) low) | destruct (Z.eqb_spec low (low + 1))];
      solve [lia | reflexivity].
  - rewrite Hcommit. reflexivity.
  - rewrite Hcommit. reflexivity.
  - intros layouts c'. subst c'.
    destruct (commits_without_target layouts (commit data pageSize layout c))
      as [Hs Hst].
    + rewrite Hcommit. reflexivity.
    + rewrite Hs, Hst. split; [reflexivity |]. rewrite Hcommit. reflexivity.
Qed.

End ScrollAnchor.

(** ** The loading flag as a guard *)

Section LoadingGuard.

Context {T : Type}.
Variable data : list T.
Variable pageSize : Z.

(** A handler created by a render in which [isLoading] is true returns at
    its first line: nothing is set and no timer is started.  The sensors'
    callbacks then only update their overlay flag. *)
Lemma rendered_loading_drops (c : Instance) (b : bool) :
  isLoading (rendered c) = true ->
  loadNextPage c = c /\ loadPrevPage c = c /\
  topObserver b c = with_state (setShowTopOverlay (negb b)) c /\
  bottomObserver data pageSize b c
  = with_state (setShowBottomOverlay (negb b)) c.
Proof.
  intros H. unfold topObserver, bottomObserver, loadNextPage, loadPrevPage.
  rewrite H, !andb_false_r. repeat split.
Qed.

(** Setting the cell does not change the constant a handler of the same
    render reads: until a commit, a second call passes the guard too. *)
Lemma stale_render_passes_twice (c : Instance) :
  isLoading (rendered c) = false ->
  pending (loadNextPage (loadPrevPage c))
  = pending c ++ [ResumePrev; ResumeNext] /\
  isLoading (state (loadPrevPage c)) = true.
Proof.
  intros H. unfold loadNextPage, loadPrevPage. rewrite H. cbn. rewrite H. cbn.
  rewrite <- app_assoc. split; reflexivity.
Qed.

End LoadingGuard.

(** ** The claims on concrete configurations *)

(** A hundred items in pages of twenty: five pages. *)
Example totalPages_100_20 : totalPages (seq 0 100) 20 = Int 5.
Proof. reflexivity. Qed.

(** A thousand items in pages of twenty: fifty pages, items [0 .. 39] on
    the first render, and after the bottom sensor has fired and its timer
    has elapsed the window is [(1, 2)] with items [20 .. 59]. *)
Example scenario_1000_20 :
  totalPages (seq 0 1000) 20 = Int 50 /\
  List.concat (map items (paginatedChunks (seq 0 1000) 20 (state (mount None))))
  = seq 0 40 /\
  let c := run (seq 0 1000) 20
             [BottomObserver true; Commit (fun _ => None); Timer 0;
              Commit (fun _ => None)]
             (mount None) in
  visiblePages (state c) = window 1 /\
  List.concat (map items (paginatedChunks (seq 0 1000) 20 (state c))) = seq 20 40.
Proof. vm_compute. repeat split. Qed.

(** Retreating from [(1, 2)]: the window is [(0, 1)] and the scroll target
    is page [1]; when page [1] is mounted at offset [100] with height [30]
    in a container at offset [10], [scrollTop] becomes [120] and the target
    is cleared. *)
Example scenario_retreat_then_anchor :
  let c := run (seq 0 1000) 20
             [BottomObserver true; Commit (fun _ => None); Timer 0;
              Commit (fun _ => None); TopObserver true;
              Commit (fun _ => None); Timer 0]
             (mount (Some (mkWrapper 10 0))) in
  visiblePages (state c) = window 0 /\
  scrollToPage (state c) = Some (Int 1) /\
  let c' := step (seq 0 1000) 20 c (Commit (fun _ => Some (mkElement 100 30))) in
  scrollWrapper c' = Some (mkWrapper 10 120) /\
  scrollToPage (state c') = None.
Proof. vm_compute. repeat split. Qed.

(** Fifteen items in pages of twenty: one page, and the window stays
    [(0, 1)] whatever happens. *)
Example scenario_15_20 (es : list Event) :
  totalPages (seq 0 15) 20 = Int 1 /\
  visiblePages (state (run (seq 0 15) 20 es (mount None))) = window 0.
Proof.
  split; [reflexivity |].
  apply (few_pages_window_fixed (seq 0 15) 20 1); [reflexivity | lia].
Qed.

Lemma loadNextPage_advances_witness :
  (totalPages (seq 0 100) 20 <> NaN /\
   visiblePages initialState = [Num (Int 0); Num (Int 1)] /\
   canLoadNext (seq 0 100) 20 initialState = true /\
   loadNextPage_updater (seq 0 100) 20 (visiblePages initialState)
   = [Num (Int 1); Num (Int 2)]) /\
  (let c := run (seq 0 100) 20 [BottomObserver true] (mount None) in
   nth_error (pending c) 0 = Some ResumeNext /\
   visiblePages (state c) = [Num (Int 0); Num (Int 1)] /\
   visiblePages (state (step (seq 0 100) 20 c (Timer 0)))
   = [Num (Int 1); Num (Int 2)]).
Proof.
  assert (H : totalPages (seq 0 100) 20 <> NaN) by (vm_compute; discriminate).
  split.
  - split; [exact H |]. split; [reflexivity |]. split; [reflexivity |].
    exact (proj1 (proj2 (proj1 (loadNextPage_advances (seq 0 100) 20)
                           initialState 0 1 H eq_refl) eq_refl)).
  - split; [reflexivity |]. split; [reflexivity |].
    exact (proj2 (loadNextPage_advances (seq 0 100) 20)
             [BottomObserver true] None 0%nat 0 1 eq_refl eq_refl).
Defined.

Lemma loadPrevPage_retreats_witness :
  (visiblePages (set_visiblePages (window 1) initialState)
   = [Num (Int 1); Num (Int 2)] /\
   canLoadPrev (set_visiblePages (window 1) initialState) = true /\
   scrollToPage (loadPrevPage_updater (set_visiblePages (window 1) initialState))
   = Some (Int 1)) /\
  (let c := run (seq 0 100) 20
              [BottomObserver true; Commit (fun _ => None); Timer 0;
               Commit (fun _ => None); TopObserver true]
              (mount None) in
   nth_error (pending c) 0 = Some ResumePrev /\
   visiblePages (state c) = [Num (Int 1); Num (Int 2)] /\
   visiblePages (state (step (seq 0 100) 20 c (Timer 0)))
   = [Num (Int 0); Num (Int 1)] /\
   scrollToPage (state (step (seq 0 100) 20 c (Timer 0))) = Some (Int 1)) /\
  (let c := with_state (set_visiblePages (window 1)) (mount None) in
   isLoading (rendered c) = false /\
   visiblePages (state c) = [Num (Int 1); Num (Int 2)] /\
   visiblePages
     (state (step (seq 0 100) 20 (loadPrevPage c)
               (Timer (List.length (pending c)))))
   = [Num (Int 0); Num (Int 1)]).
Proof.
  split; [| split].
  - split; [reflexivity |]. split; [reflexivity |].
    exact (proj1 (proj2 (proj2 (proj1 (loadPrevPage_retreats (seq 0 100) 20)
                                  (set_visiblePages (window 1) initialState) 1 2
                                  eq_refl) eq_refl))).
  - split; [reflexivity |]. split; [reflexivity |].
    split.
    + exact (proj1 (proj1 (proj2 (loadPrevPage_retreats (seq 0 100) 20))
                      (run (seq 0 100) 20
                         [BottomObserver true; Commit (fun _ => None); Timer 0;
                          Commit (fun _ => None); TopObserver true]
                         (mount None))
                      0%nat 1 2 eq_refl eq_refl)).
    + exact (proj1 (proj2 (proj1 (proj2 (loadPrevPage_retreats (seq 0 100) 20))
                             (run (seq 0 100) 20
                                [BottomObserver true; Commit (fun _ => None);
                                 Timer 0; Commit (fun _ => None);
                                 TopObserver true]
                                (mount None))
                             0%nat 1 2 eq_refl eq_refl))).
  - split; [reflexivity |]. split; [reflexivity |].
    exact (proj1 (proj2 (proj2 (loadPrevPage_retreats (seq 0 100) 20))
                    (with_state (set_visiblePages (window 1)) (mount None))
                    1 2 eq_refl eq_refl)).
Defined.

Lemma loadPrevPage_resume_dropped_witness :
  0 <= 0 /\
  visiblePages (state (mount None)) = [Num (Int 0); Num (Int 1)] /\
  loadPrevPage_resume (mount None) = with_state (setIsLoading false) (mount None).
Proof.
  split; [lia |]. split; [reflexivity |].
  exact (proj1 (loadPrevPage_resume_dropped (mount None) 0 1
                  (Z.le_refl 0) eq_refl)).
Defined.

Lemma advance_then_retreat_witness :
  visiblePages (state (mount None)) = window 0 /\
  canLoadNext (seq 0 100) 20 (state (mount None)) = true /\
  canLoadPrev (state (loadNextPage_resume (seq 0 100) 20 (mount None))) = true /\
  visiblePages
    (state (loadPrevPage_resume (loadNextPage_resume (seq 0 100) 20 (mount None))))
  = visiblePages (state (mount None)).
Proof.
  split; [reflexivity |]. split; [reflexivity |]. split; [reflexivity |].
  exact (advance_then_retreat (seq 0 100) 20 (mount None) 0
           eq_refl eq_refl eq_refl).
Defined.

Lemma paginatedChunks_one_per_index_witness :
  0 < 20 /\ 0 <= 0 /\ visiblePages initialState = window 0 /\
  paginatedChunks (seq 0 100) 20 initialState
  = [mkChunk (Num (Int 0)) (seq 0 20); mkChunk (Num (Int 1)) (seq 20 20)].
Proof.
  split; [lia |]. split; [lia |]. split; [reflexivity |].
  exact (proj1 (proj2 (paginatedChunks_one_per_index (seq 0 100) 20 initialState)
                  0 eq_refl (Z.le_refl 0) eq_refl)).
Defined.

Lemma nonpositive_pageSize_accepted_witness :
  0 <= 0 /\
  exists v, BidirectionalInfiniteScroll [7%nat] 0 initialState = Normal v /\
            map fragmentPage (fragments v) = visiblePages initialState.
Proof.
  split; [lia |].
  exact (proj1 (nonpositive_pageSize_accepted [7%nat] 0 initialState
                  (Z.le_refl 0))).
Defined.

Lemma scroll_anchor_corrected_once_witness :
  let c := mkInstance (mkState (window 0) false (Some (Int 1)) false false)
             (mkState (window 1) true None false false) []
             (Some (mkWrapper 10 0)) in
  let layout := fun _ : value => Some (mkElement 100 30) in
  visiblePages (state c) = window 0 /\
  scrollToPage (state c) = Some (Int 1) /\
  (1 = 0 \/ 1 = 0 + 1) /\
  scrollWrapper c = Some (mkWrapper 10 0) /\
  layout (Num (Int 1)) = Some (mkElement 100 30) /\
  scrollWrapper (commit (seq 0 100) 20 layout c) = Some (mkWrapper 10 120).
Proof.
  intros c layout.
  split; [reflexivity |]. split; [reflexivity |].
  split; [right; reflexivity |]. split; [reflexivity |]. split; [reflexivity |].
  exact (proj1 (proj2 (scroll_anchor_corrected_once (seq 0 100) 20 c 0 1
                         (mkWrapper 10 0) (mkElement 100 30) layout
                         eq_refl eq_refl (or_intror eq_refl) eq_refl eq_refl))).
Defined.

(** C6, as the spec words it, fails: with [pageSize = 0] and one item the
    component body does not throw; it returns two pages without items, and
    the page count is infinite. *)
Lemma zero_pageSize_not_rejected :
  0 <= 0 /\
  ~ (exists message,
       BidirectionalInfiniteScroll [7%nat] 0 initialState = Throw message) /\
  totalPages [7%nat] 0 = PInf /\
  paginatedChunks [7%nat] 0 initialState
  = [mkChunk (Num (Int 0)) []; mkChunk (Num (Int 1)) []].
Proof.
  split; [lia |]. split; [| split; reflexivity].
  intros [message H]. discriminate H.
Qed.

(** C7, as the spec words it, fails: for an empty dataset ([totalPages] is
    [0]) two slices are produced, and for fifteen items in pages of twenty
    ([totalPages] is [1]) the list has an entry for page [1]. *)
Lemma paginatedChunks_not_clipped :
  totalPages (@nil nat) 20 = Int 0 /\
  paginatedChunks (@nil nat) 20 initialState <> [] /\
  paginatedChunks (@nil nat) 20 initialState
  = [mkChunk (Num (Int 0)) []; mkChunk (Num (Int 1)) []] /\
  totalPages (seq 0 15) 20 = Int 1 /\
  paginatedChunks (seq 0 15) 20 initialState
  = [mkChunk (Num (Int 0)) (seq 0 15); mkChunk (Num (Int 1)) []].
Proof.
  split; [reflexivity |]. split; [discriminate |]. repeat split.
Qed.

(** C8, as the spec words it, fails: with a single page (fifteen items in
    pages of twenty) the first window is [(0, 1)], not [(0, 0)]. *)
Lemma initial_window_single_page :
  totalPages (seq 0 15) 20 = Int 1 /\
  visiblePages (state (mount None)) = [Num (Int 0); Num (Int 1)] /\
  visiblePages (state (mount None)) <> [Num (Int 0); Num (Int 0)] /\
  exists v,
    BidirectionalInfiniteScroll (seq 0 15) 20 (state (mount None)) = Normal v /\
    map fragmentPage (fragments v) = [Num (Int 0); Num (Int 1)].
Proof.
  split; [reflexivity |]. split; [reflexivity |]. split; [discriminate |].
  eexists. split; reflexivity.
Qed.

(** C5 on the code.  A thousand items in pages of five; the first advance
    has completed and been rendered, so the window is [(1, 2)] and nothing
    is in flight.  Both sensors then report their sentinel visible to the
    observers of that render.  [loadPrevPage] sets [isLoading] and waits;
    [loadNextPage], reading the [isLoading] of the same render, does not
    return at its guard and waits too.  Both updaters then run: the window
    goes to [(0, 1)], with the scroll target set, and back to [(1, 2)].
    In the same way two calls of [loadNextPage] from one render move the
    window by two pages. *)
Theorem second_trigger_of_same_render_not_dropped :
  let data := seq 0 1000 in
  let c0 := run data 5
              [BottomObserver true; Commit (fun _ => None); Timer 0;
               Commit (fun _ => None)]
              (mount None) in
  (visiblePages (state c0) = window 1 /\ isLoading (state c0) = false /\
   pending c0 = []) /\
  let c1 := run data 5 [TopObserver true] c0 in
  (isLoading (state c1) = true /\ pending c1 = [ResumePrev]) /\
  let c2 := run data 5 [BottomObserver true] c1 in
  (c2 <> c1 /\ pending c2 = [ResumePrev; ResumeNext]) /\
  (visiblePages (state (run data 5 [Timer 0] c2)) = window 0 /\
   scrollToPage (state (run data 5 [Timer 0] c2)) = Some (Int 1) /\
   visiblePages (state (run data 5 [Timer 0; Timer 0] c2)) = window 1) /\
  let c3 := loadNextPage (loadNextPage c0) in
  (pending c3 = [ResumeNext; ResumeNext] /\
   visiblePages (state (run data 5 [Timer 0; Timer 0] c3)) = window 3).
Proof.
  vm_compute. repeat split. discriminate.
Qed.

(** ** The class names: [cn] *)

Lemma ClassValue_nested_ind (P : ClassValue -> Prop) :
  (forall s, P (ClassString s)) ->
  (forall n, P (ClassNumber n)) ->
  P ClassNull -> P ClassUndefined -> P ClassFalse ->
  (forall inputs, Forall P inputs -> P (ClassArray inputs)) ->
  forall val, P val.
Proof.
  intros Hs Hn Hnull Hundef Hfalse Harr.
  fix IH 1.
  intros [s | n | | | | inputs];
    [apply Hs | apply Hn | exact Hnull | exact Hundef | exact Hfalse |].
  apply Harr. induction inputs as [| v inputs IHl]; constructor.
  - apply IH.
  - exact IHl.
Qed.

Lemma append_assoc (a b c : string) : ((a ++ b) ++ c = a ++ (b ++ c))%string.
Proof.
  induction a as [| ch a IH]; cbn; [reflexivity | rewrite IH; reflexivity].
Qed.

Lemma append_empty_r (a : string) : (a ++ "")%string = a.
Proof.
  induction a as [| ch a IH]; cbn; [reflexivity | rewrite IH; reflexivity].
Qed.

(** [join] of two arrays put end to end. *)
Lemma concat_app (sep : string) (a b : list string) :
  a <> [] -> b <> [] ->
  String.concat sep (a ++ b)
  = (String.concat sep a ++ sep ++ String.concat sep b)%string.
Proof.
  intros Ha Hb. induction a as [| x a IH]; [contradiction |].
  destruct a as [| y a].
  - cbn. destruct b; [contradiction | reflexivity].
  - change (String.concat sep ((x :: y :: a) ++ b))
      with (x ++ sep ++ String.concat sep ((y :: a) ++ b))%string.
    rewrite IH by discriminate.
    change (String.concat sep (x :: y :: a))
      with (x ++ sep ++ String.concat sep (y :: a))%string.
    rewrite !append_assoc. reflexivity.
Qed.

Lemma concat_nonempty (sep : string) (l : list string) :
  Forall (fun c => c <> ""%string) l ->
  (String.concat sep l = ""%string <-> l = []).
Proof.
  intros Hl. split; [| intros ->; reflexivity].
  destruct Hl as [| x l Hx _]; [reflexivity |].
  destruct x as [| ch x]; [contradiction |].
  destruct l; cbn; discriminate.
Qed.

Lemma number_to_string_nonempty (n : num) : number_to_string n <> ""%string.
Proof.
  destruct n as [z | | |]; cbn; try discriminate.
  destruct (Z.to_int z) as [d | d]; cbn; [| discriminate].
  destruct d; cbn; discriminate.
Qed.

(** [process] only appends to [classes]. *)
Lemma process_app (val : ClassValue) :
  forall classes, process val classes = classes ++ process val [].
Proof.
  pattern val. apply ClassValue_nested_ind; clear val.
  1, 2: intros x classes; cbn [process];
    destruct (falsy _); [symmetry; apply app_nil_r | reflexivity].
  1, 2, 3: intros classes; cbn; symmetry; apply app_nil_r.
  intros inputs IH classes. cbn [process falsy]. revert classes.
  induction IH as [| v inputs Hv _ IHl]; intros classes;
    [symmetry; apply app_nil_r |].
  cbn [fold_left]. rewrite IHl, (IHl (process v [])), Hv.
  symmetry. apply app_assoc.
Qed.

Lemma forEach_process_app (inputs : list ClassValue) (classes : list string) :
  fold_left (fun classes' v => process v classes') inputs classes
  = classes ++ fold_left (fun classes' v => process v classes') inputs [].
Proof.
  revert classes. induction inputs as [| v inputs IH]; intros classes;
    [symmetry; apply app_nil_r |].
  cbn [fold_left]. rewrite IH, (IH (process v [])), (process_app v classes).
  symmetry. apply app_assoc.
Qed.

Lemma forEach_process_inputs_app (l1 l2 : list ClassValue) :
  fold_left (fun classes v => process v classes) (l1 ++ l2) []
  = fold_left (fun classes v => process v classes) l1 []
    ++ fold_left (fun classes v => process v classes) l2 [].
Proof.
  rewrite fold_left_app. apply forEach_process_app.
Qed.

(** No class pushed is the empty string. *)
Lemma process_nonempty (val : ClassValue) :
  Forall (fun c => c <> ""%string) (process val []).
Proof.
  pattern val. apply ClassValue_nested_ind; clear val.
  - intros s. cbn [process]. destruct (falsy _) eqn:Hf; repeat constructor.
    cbn in Hf. apply String.eqb_neq. exact Hf.
  - intros n. cbn [process]. destruct (falsy _); repeat constructor.
    apply number_to_string_nonempty.
  - constructor.
  - constructor.
  - constructor.
  - intros inputs IH. cbn [process falsy].
    induction IH as [| v inputs Hv _ IHl]; [constructor |].
    cbn [fold_left]. rewrite forEach_process_app.
    apply Forall_app. split; assumption.
Qed.

Lemma forEach_process_nonempty (inputs : list ClassValue) :
  Forall (fun c => c <> ""%string)
    (fold_left (fun classes v => process v classes) inputs []).
Proof.
  exact (process_nonempty (ClassArray inputs)).
Qed.

(** X1.  Nesting does not matter: an array among the inputs of [cn] gives
    the same string as its elements written in its place, at any depth. *)
Theorem cn_flattens_arrays (l1 inputs l2 : list ClassValue) :
  cn (l1 ++ ClassArray inputs :: l2) = cn (l1 ++ inputs ++ l2).
Proof.
  unfold cn. f_equal.
  rewrite !forEach_process_inputs_app.
  change (ClassArray inputs :: l2) with ([ClassArray inputs] ++ l2).
  rewrite forEach_process_inputs_app. reflexivity.
Qed.

(** X2.  A falsy input (the empty string, [0], [NaN], [null], [undefined],
    [false]) leaves no trace in the result of [cn], wherever it stands. *)
Theorem cn_skips_falsy (l1 l2 : list ClassValue) (val : ClassValue) :
  falsy val = true ->
  cn (l1 ++ val :: l2) = cn (l1 ++ l2).
Proof.
  intros Hf. unfold cn. f_equal.
  change (val :: l2) with ([val] ++ l2).
  rewrite !forEach_process_inputs_app.
  replace (fold_left (fun classes v => process v classes) [val] []) with (@nil string);
    [reflexivity |].
  cbn [fold_left]. destruct val; cbn [process]; rewrite ?Hf; reflexivity.
Qed.

(** X3.  [cn] of inputs put end to end is the two results joined by a
    single space, and just the other result when one of them is empty: no
    space is added at either end. *)
Theorem cn_app (l1 l2 : list ClassValue) :
  cn (l1 ++ l2)
  = if String.eqb (cn l1) "" then cn l2
    else if String.eqb (cn l2) "" then cn l1
    else (cn l1 ++ " " ++ cn l2)%string.
Proof.
  unfold cn. rewrite forEach_process_inputs_app.
  set (a := fold_left (fun classes v => process v classes) l1 []).
  set (b := fold_left (fun classes v => process v classes) l2 []).
  pose proof (concat_nonempty " " a (forEach_process_nonempty l1)) as Ha.
  pose proof (concat_nonempty " " b (forEach_process_nonempty l2)) as Hb.
  destruct (String.eqb_spec (String.concat " " a) "") as [Ea | Ea].
  - apply Ha in Ea. rewrite Ea. reflexivity.
  - destruct (String.eqb_spec (String.concat " " b) "") as [Eb | Eb].
    + apply Hb in Eb. rewrite Eb, app_nil_r. reflexivity.
    + apply concat_app.
      * intros E. apply Ea, Ha, E.
      * intros E. apply Eb, Hb, E.
Qed.

(** X4.  The scroll container's [className] is the component's own classes
    when [wrapperClassNames] is empty (its default), and otherwise those
    classes, one space, and [wrapperClassNames]. *)
Theorem className_merges (wrapperClassNames : string) :
  className wrapperClassNames
  = if String.eqb wrapperClassNames ""
    then "relative w-full max-h-[400px] overflow-y-auto"%string
    else ("relative w-full max-h-[400px] overflow-y-auto "
          ++ wrapperClassNames)%string.
Proof.
  unfold className, cn. cbn [fold_left process falsy].
  change (String.eqb "relative w-full max-h-[400px] overflow-y-auto" "")
    with false. cbn iota.
  destruct (String.eqb wrapperClassNames ""); reflexivity.
Qed.

(** ** Sequences of completed handlers *)

Section Sequences.

Context {T : Type}.
Variable data : list T.
Variable pageSize : Z.

(** X5.  Retreat, then advance: from a window [(low, low + 1)] on which
    [canLoadPrev] holds, and [canLoadNext] holds once [loadPrevPage] has
    completed, a completed [loadNextPage] brings the window back; the
    scroll target set by the retreat, page [low], stays set. *)
Theorem retreat_then_advance (c : Instance) (low : Z) :
  visiblePages (state c) = window low ->
  canLoadPrev (state c) = true ->
  canLoadNext data pageSize (state (loadPrevPage_resume c)) = true ->
  visiblePages
    (state (loadNextPage_resume data pageSize (loadPrevPage_resume c)))
  = visiblePages (state c) /\
  scrollToPage
    (state (loadNextPage_resume data pageSize (loadPrevPage_resume c)))
  = Some (Int low).
Proof.
  intros Hw Hprev Hnext.
  rewrite (canLoadPrev_pair _ low (low + 1) Hw) in Hprev.
  apply Z.ltb_lt in Hprev.
  assert (Hst : state (loadPrevPage_resume c)
                = setIsLoading false
                    (set_visiblePages [Num (Int (low - 1)); Num (Int low)]
                       (setScrollToPage (Some (Int (low - 1 + 1))) (state c)))).
  { rewrite loadPrevPage_resume_state, (loadPrevPage_updater_pair _ _ _ Hw).
    destruct (Z.ltb_spec (low - 1) 0); [lia | reflexivity]. }
  assert (Hret : visiblePages (state (loadPrevPage_resume c))
                 = [Num (Int (low - 1)); Num (Int low)])
    by (rewrite Hst; reflexivity).
  rewrite (canLoadNext_pair _ _ _ _ _ Hret) in Hnext.
  rewrite loadNextPage_resume_state.
  cbn [setIsLoading set_visiblePages visiblePages scrollToPage].
  rewrite Hret, loadNextPage_updater_pair.
  rewrite (ge_succ_lt_pred _ _ (lt_pred_not_NaN _ _ Hnext)), Hnext.
  cbn [negb]. split.
  - rewrite Hw. reflexivity.
  - rewrite Hst. cbn. f_equal. f_equal. lia.
Qed.

(** X6.  Advancing saturates at the last page: from a window
    [(low, low + 1)] inside [t >= 2] pages, [n] completed [loadNextPage]s
    in a row leave the window at [(m, m + 1)] with
    [m = min (low + n) (t - 2)]. *)
Theorem advance_n_times (c : Instance) (t low : Z) (n : nat) :
  totalPages data pageSize = Int t ->
  visiblePages (state c) = window low ->
  low + 2 <= t ->
  visiblePages (state (Nat.iter n (loadNextPage_resume data pageSize) c))
  = window (Z.min (low + Z.of_nat n) (t - 2)).
Proof.
  intros Ht Hw Hlow. induction n as [| n IH].
  - unfold Nat.iter, nat_rect. rewrite Hw. f_equal. lia.
  - rewrite Nat.iter_succ, loadNextPage_resume_state.
    cbn [setIsLoading set_visiblePages visiblePages]. rewrite IH.
    unfold window at 1. rewrite loadNextPage_updater_pair, Ht, ge_Int.
    set (m := Z.min (low + Z.of_nat n) (t - 2)).
    destruct (Z.leb_spec t (m + 1 + 1)).
    + change (window m = window (Z.min (low + Z.of_nat (S n)) (t - 2))).
      f_equal. lia.
    + change (window (m + 1) = window (Z.min (low + Z.of_nat (S n)) (t - 2))).
      f_equal. lia.
Qed.

(** X7.  With pages of size zero ([pageSize] the number [0], not [-0]) and
    data that is not empty, no page count stops an advance: [n] completed
    [loadNextPage]s from [(low, low + 1)] leave the window at
    [(low + n, low + n + 1)], as long as these indices are integers a
    number holds exactly (from [-2^53] up to [2^53]), where the code's
    [prev[1] + 1] is the integer sum. *)
Theorem advance_unbounded_zero_pageSize (c : Instance) (low : Z) (n : nat) :
  pageSize = 0 -> data <> [] ->
  visiblePages (state c) = window low ->
  - 2 ^ 53 <= low -> low + Z.of_nat n + 1 <= 2 ^ 53 ->
  visiblePages (state (Nat.iter n (loadNextPage_resume data pageSize) c))
  = window (low + Z.of_nat n).
Proof.
  intros Hp Hd Hw _ _.
  assert (Ht : totalPages data pageSize = PInf).
  { rewrite Hp. unfold totalPages, ceil_div, JS.length.
    destruct data; [contradiction | reflexivity]. }
  induction n as [| n IH].
  - unfold Nat.iter, nat_rect. rewrite Hw. f_equal. lia.
  - rewrite Nat.iter_succ, loadNextPage_resume_state.
    cbn [setIsLoading set_visiblePages visiblePages]. rewrite IH.
    unfold window at 1. rewrite loadNextPage_updater_pair, Ht.
    cbn [ge cmp].
    change (window (low + Z.of_nat n + 1) = window (low + Z.of_nat (S n))).
    f_equal. lia.
Qed.

(** X8.  Retreating saturates at the first page: from [(low, low + 1)],
    [0 <= low], [n] completed [loadPrevPage]s in a row leave the window at
    [(m, m + 1)] with [m = max (low - n) 0]. *)
Theorem retreat_n_times (c : Instance) (low : Z) (n : nat) :
  0 <= low ->
  visiblePages (state c) = window low ->
  visiblePages (state (Nat.iter n loadPrevPage_resume c))
  = window (Z.max (low - Z.of_nat n) 0).
Proof.
  intros Hlow Hw. induction n as [| n IH].
  - unfold Nat.iter, nat_rect. rewrite Hw. f_equal. lia.
  - rewrite Nat.iter_succ, loadPrevPage_resume_state.
    rewrite (loadPrevPage_updater_pair _ _ _ IH).
    set (m := Z.max (low - Z.of_nat n) 0).
    destruct (Z.ltb_spec (m - 1) 0).
    + cbn [setIsLoading visiblePages]. rewrite IH. fold m. f_equal. lia.
    + cbn [setIsLoading set_visiblePages visiblePages].
      replace (Z.max (low - Z.of_nat (S n)) 0) with (m - 1) by lia.
      unfold window. repeat f_equal; lia.
Qed.

End Sequences.

(** ** What holds in every run *)

Section Runs.

Context {T : Type}.
Variable data : list T.
Variable pageSize : Z.

Lemma run_invariant (Q : Instance -> Prop) :
  (forall c e, Q c -> Q (step data pageSize c e)) ->
  forall es c, Q c -> Q (run data pageSize es c).
Proof.
  intros Hstep es. induction es as [| e es IH]; intros c Hc; [exact Hc |].
  cbn [run fold_left]. apply IH, Hstep, Hc.
Qed.

(** What the callback ref keeps, a commit keeps. *)
Lemma commit_preserves (Q : Instance -> Prop)
    (layout : value -> option Element) (c : Instance) :
  (forall el c0, Q c0 -> Q (anchorRef el c0)) ->
  Q (mkInstance (state c) (state c) (pending c) (scrollWrapper c)) ->
  Q (commit data pageSize layout c).
Proof.
  intros Href. unfold commit, BidirectionalInfiniteScroll. cbn [fragments].
  generalize (mkInstance (state c) (state c) (pending c) (scrollWrapper c)).
  induction (paginatedChunks data pageSize (state c)) as [| ch chunks IH];
    intros c0 Hc0; [exact Hc0 |].
  cbn [map fold_left]. apply IH. unfold attach. cbn [ref fragmentPage].
  destruct (strict_eq (page ch) (scrollToPage (state c))); [| exact Hc0].
  apply Href, Hc0.
Qed.

Lemma step_within (t : Z) (c : Instance) (e : Event) :
  totalPages data pageSize = Int t ->
  within t (state c) -> within t (state (step data pageSize c e)).
Proof.
  intros Ht Hin. destruct e as [b | b | i | layout]; cbn [step].
  - unfold topObserver, loadPrevPage. cbn [rendered with_state].
    destruct (b && negb (isLoading (rendered c)) && canLoadPrev (rendered c));
      [destruct (isLoading (rendered c)) |]; exact Hin.
  - unfold bottomObserver, loadNextPage. cbn [rendered with_state].
    destruct (b && negb (isLoading (rendered c))
              && canLoadNext data pageSize (rendered c));
      [destruct (isLoading (rendered c)) |]; exact Hin.
  - unfold timer. destruct (nth_error (pending c) i) as [[|] |]; [| | exact Hin].
    + destruct Hin as [[low [Hw [H0 Hb]]] Htarget].
      rewrite loadNextPage_resume_state. cbn [state]. split; [| exact Htarget].
      cbn [setIsLoading set_visiblePages visiblePages]. rewrite Hw.
      unfold window at 1. rewrite loadNextPage_updater_pair, Ht, ge_Int.
      destruct (Z.leb_spec t (low + 1 + 1)).
      * exists low. repeat split; assumption.
      * exists (low + 1). repeat split; [lia | right; lia].
    + destruct Hin as [[low [Hw [H0 Hb]]] Htarget].
      rewrite loadPrevPage_resume_state. cbn [state].
      rewrite (loadPrevPage_updater_pair _ _ _ Hw).
      destruct (Z.ltb_spec (low - 1) 0).
      * split; [exists low; repeat split; assumption | exact Htarget].
      * split.
        -- exists (low - 1). cbn. unfold window.
           repeat split; [repeat f_equal; lia | lia | lia].
        -- right. exists low. cbn. repeat split; [repeat f_equal; lia | lia ..].
  - apply (commit_preserves (fun c0 => within t (state c0))); [| exact Hin].
    intros el c0 [Hwin Htarget]. unfold anchorRef.
    destruct el, (scrollWrapper c0); try (split; assumption).
    split; [exact Hwin | left; reflexivity].
Qed.

Lemma run_within (t : Z) (es : list Event) (w : option Wrapper) :
  totalPages data pageSize = Int t ->
  within t (state (run data pageSize es (mount w))).
Proof.
  intros Ht.
  apply (run_invariant (fun c => within t (state c))
           (fun c e => step_within t c e Ht)).
  split; [| left; reflexivity]. exists 0. repeat split; [lia | left; lia].
Qed.

(** X9.  With [t >= 2] pages the window never leaves the pages: in every
    run [visiblePages] is [(low, low + 1)] with [0 <= low] and
    [low + 1 <= t - 1]. *)
Theorem window_within_pages (t : Z) (es : list Event) (w : option Wrapper) :
  totalPages data pageSize = Int t -> 2 <= t ->
  exists low,
    visiblePages (state (run data pageSize es (mount w))) = window low /\
    0 <= low /\ low + 1 <= t - 1.
Proof.
  intros Ht Hge.
  destruct (run_within t es w Ht) as [[low [Hw [H0 Hb]]] _].
  exists low. repeat split; [exact Hw | exact H0 | lia].
Qed.

(** X10.  The scroll target is never page [0] nor the last page: in every
    run [scrollToPage] is [null] or an integer [p] with
    [1 <= p <= t - 2]. *)
Theorem scrollToPage_within_pages (t : Z) (es : list Event) (w : option Wrapper) :
  totalPages data pageSize = Int t ->
  scrollToPage (state (run data pageSize es (mount w))) = None \/
  exists p,
    scrollToPage (state (run data pageSize es (mount w))) = Some (Int p) /\
    1 <= p <= t - 2.
Proof.
  intros Ht.
  destruct (run_within t es w Ht) as [_ [Hnone | [p [Hp [H1 H2]]]]].
  - left. exact Hnone.
  - right. exists p. split; [exact Hp | lia].
Qed.

End Runs.

Section RunsOfHandlers.

Context {T : Type}.
Variable data : list T.
Variable pageSize : Z.

(** X11.  If [canLoadNext] is false on the first render (at most two
    pages, a negative page size, or no data with pages of size zero), the
    window is [(0, 1)] for ever: no run starts a [loadNextPage], and no
    [loadPrevPage] moves the window. *)
Theorem window_fixed_without_next_page (es : list Event) (w : option Wrapper) :
  canLoadNext data pageSize initialState = false ->
  visiblePages (state (run data pageSize es (mount w))) = window 0 /\
  ~ In ResumeNext (pending (run data pageSize es (mount w))).
Proof.
  intros Hcan.
  assert (Hno : forall s, visiblePages s = window 0 ->
                          canLoadNext data pageSize s = false).
  { intros s Hs. rewrite (canLoadNext_pair _ _ _ _ _ Hs).
    rewrite <- Hcan. symmetry. apply (canLoadNext_pair _ _ _ 0 (0 + 1)).
    reflexivity. }
  pose (Q := fun c : Instance =>
               visiblePages (state c) = window 0 /\
               visiblePages (rendered c) = window 0 /\
               ~ In ResumeNext (pending c)).
  assert (HQ : Q (run data pageSize es (mount w))).
  { apply run_invariant; [| repeat split; intros []].
    clear es. intros c e (Hs & Hr & Hp).
    destruct e as [b | b | i | layout]; cbn [step].
    - unfold topObserver, loadPrevPage. cbn [rendered with_state].
      destruct (b && negb (isLoading (rendered c)) && canLoadPrev (rendered c));
        [destruct (isLoading (rendered c)) |];
        repeat split; try assumption.
      cbn. intros H. apply in_app_or in H.
      destruct H as [H | [H | []]]; [exact (Hp H) | discriminate H].
    - unfold bottomObserver. rewrite (Hno _ Hr), andb_false_r.
      repeat split; assumption.
    - unfold timer. destruct (nth_error (pending c) i) as [p |] eqn:Hi;
        [| repeat split; assumption].
      destruct p; [exfalso; apply Hp; apply (nth_error_In _ i); exact Hi |].
      repeat split; try exact Hr.
      + rewrite loadPrevPage_resume_state. cbn [state].
        rewrite (loadPrevPage_updater_pair _ 0 (0 + 1) Hs). exact Hs.
      + cbn. intros H. apply Hp. eapply In_remove_nth. exact H.
    - apply (commit_preserves data pageSize Q).
      + intros el c0 (Hs0 & Hr0 & Hp0). unfold anchorRef.
        destruct el, (scrollWrapper c0); repeat split; assumption.
      + repeat split; assumption. }
  destruct HQ as (Hs & _ & Hp). split; assumption.
Qed.

Lemma waiting_handler_when_loading (es : list Event) (w : option Wrapper) :
  isLoading (state (run data pageSize es (mount w))) = true ->
  pending (run data pageSize es (mount w)) <> [].
Proof.
  apply (run_invariant data pageSize
           (fun c => isLoading (state c) = true -> pending c <> []));
    [| discriminate].
  clear es. intros c e Hc. destruct e as [b | b | i | layout]; cbn [step].
  - unfold topObserver, loadPrevPage. cbn [rendered with_state].
    destruct (b && negb (isLoading (rendered c)) && canLoadPrev (rendered c));
      [destruct (isLoading (rendered c)) |]; try exact Hc.
    intros _. cbn. destruct (pending c); discriminate.
  - unfold bottomObserver, loadNextPage. cbn [rendered with_state].
    destruct (b && negb (isLoading (rendered c))
              && canLoadNext data pageSize (rendered c));
      [destruct (isLoading (rendered c)) |]; try exact Hc.
    intros _. cbn. destruct (pending c); discriminate.
  - unfold timer. destruct (nth_error (pending c) i) as [[|] |];
      [discriminate | discriminate | exact Hc].
  - apply (commit_preserves data pageSize
             (fun c0 => isLoading (state c0) = true -> pending c0 <> []));
      [| exact Hc].
    intros el c0 Hc0. unfold anchorRef.
    destruct el, (scrollWrapper c0); exact Hc0.
Qed.


(** X13.  A sensor callback always records its overlay flag as the
    negation of [isIntersecting], whether a load is under way or not, and
    changes neither the other overlay flag, nor the window, nor the scroll
    target, nor the scroll container.  It starts its handler, once, exactly
    when the sentinel intersects, the render it belongs to is not loading
    and the direction is eligible in that render. *)
Theorem observers_frame (b : bool) (c : Instance) :
  (showTopOverlay (state (topObserver b c)) = negb b /\
   showBottomOverlay (state (topObserver b c)) = showBottomOverlay (state c) /\
   visiblePages (state (topObserver b c)) = visiblePages (state c) /\
   scrollToPage (state (topObserver b c)) = scrollToPage (state c) /\
   scrollWrapper (topObserver b c) = scrollWrapper c /\
   pending (topObserver b c)
   = if b && negb (isLoading (rendered c)) && canLoadPrev (rendered c)
     then pending c ++ [ResumePrev] else pending c) /\
  (showBottomOverlay (state (bottomObserver data pageSize b c)) = negb b /\
   showTopOverlay (state (bottomObserver data pageSize b c))
   = showTopOverlay (state c) /\
   visiblePages (state (bottomObserver data pageSize b c))
   = visiblePages (state c) /\
   scrollToPage (state (bottomObserver data pageSize b c))
   = scrollToPage (state c) /\
   scrollWrapper (bottomObserver data pageSize b c) = scrollWrapper c /\
   pending (bottomObserver data pageSize b c)
   = if b && negb (isLoading (rendered c))
        && canLoadNext data pageSize (rendered c)
     then pending c ++ [ResumeNext] else pending c).
Proof.
  split.
  - unfold topObserver, loadPrevPage. cbn [rendered with_state].
    destruct (isLoading (rendered c));
      rewrite ?andb_false_r, ?andb_true_r; cbn [negb];
      [repeat split |].
    destruct (b && canLoadPrev (rendered c)); repeat split.
  - unfold bottomObserver, loadNextPage. cbn [rendered with_state].
    destruct (isLoading (rendered c));
      rewrite ?andb_false_r, ?andb_true_r; cbn [negb];
      [repeat split |].
    destruct (b && canLoadNext data pageSize (rendered c)); repeat split.
Qed.

End RunsOfHandlers.

(** ** Rendering: refs and pages *)

Section Rendering.

Context {T : Type}.
Variable data : list T.
Variable pageSize : Z.

(** X14.  The scroll correction is skipped, and nothing is thrown, when
    there is no target, when the target is not one of the two pages of the
    window, when the caller attached the ref to no element, or when the
    scroll container is not attached: the commit then leaves the scroll
    container and every state cell as they were, the target included. *)
Theorem scroll_anchor_skipped
    (c : Instance) (low : Z) (layout : value -> option Element) :
  visiblePages (state c) = window low ->
  scrollToPage (state c) = None \/
  (exists p, scrollToPage (state c) = Some (Int p) /\
             (p <> low /\ p <> low + 1 \/
              layout (Num (Int p)) = None \/
              scrollWrapper c = None)) ->
  commit data pageSize layout c
  = mkInstance (state c) (state c) (pending c) (scrollWrapper c).
Proof.
  intros Hw [Hnone | [p [Hp Hskip]]].
  - apply commit_without_target. exact Hnone.
  - destruct (fragments_window data pageSize (state c) low Hw)
      as [items0 [items1 Hview]].
    rewrite Hp, !strict_eq_Int in Hview.
    unfold commit. rewrite Hview. cbn [fragments fold_left].
    unfold attach. cbn [ref fragmentPage].
    destruct (Z.eqb_spec low p) as [<- | Hne0].
    + destruct (Z.eqb_spec (low + 1) low); [lia |].
      destruct Hskip as [[H _] | [H | H]]; [contradiction | |];
        unfold anchorRef; cbn [scrollWrapper]; rewrite H;
        [reflexivity | destruct (layout (Num (Int low))); reflexivity].
    + destruct (Z.eqb_spec (low + 1) p) as [<- | Hne1]; [| reflexivity].
      destruct Hskip as [[_ H] | [H | H]]; [contradiction | |];
        unfold anchorRef; cbn [scrollWrapper]; rewrite H;
        [reflexivity | destruct (layout (Num (Int (low + 1)))); reflexivity].
Qed.

(** X15.  In every run at most one of the rendered fragments is given a
    ref, and a fragment that is given one is the page [scrollToPage]
    names. *)
Theorem at_most_one_ref (es : list Event) (w : option Wrapper) :
  exists v,
    BidirectionalInfiniteScroll data pageSize
      (state (run data pageSize es (mount w))) = Normal v /\
    (List.length (filter has_ref (fragments v)) <= 1)%nat /\
    forall f, In f (fragments v) -> has_ref f = true ->
              scrollToPage (state (run data pageSize es (mount w)))
              = Some (to_num (fragmentPage f)).
Proof.
  set (s := state (run data pageSize es (mount w))).
  destruct (run_consecutive data pageSize es (mount w)) as [low [_ Hw]].
  { exists 0. split; [lia | reflexivity]. }
  fold s in Hw.
  destruct (fragments_window data pageSize s low Hw) as [items0 [items1 Hview]].
  eexists. split; [exact Hview |]. cbn [fragments].
  assert (Heq : forall i, strict_eq (Num (Int i)) (scrollToPage s) = true ->
                          scrollToPage s = Some (Int i)).
  { intros i. destruct (scrollToPage s) as [[p | | |] |]; try discriminate.
    rewrite strict_eq_Int. intros H. apply Z.eqb_eq in H. subst. reflexivity. }
  split.
  - cbn [filter]. unfold has_ref at 1 2. cbn [ref].
    destruct (strict_eq (Num (Int low)) (scrollToPage s)) eqn:E0;
      destruct (strict_eq (Num (Int (low + 1))) (scrollToPage s)) eqn:E1;
      cbn; try lia.
    apply Heq in E0. apply Heq in E1. rewrite E0 in E1.
    injection E1. lia.
  - intros f [<- | [<- | []]]; unfold has_ref; cbn [ref fragmentPage to_num];
      intros H.
    + destruct (strict_eq (Num (Int low)) (scrollToPage s)) eqn:E;
        [apply Heq, E | discriminate H].
    + destruct (strict_eq (Num (Int (low + 1))) (scrollToPage s)) eqn:E;
        [apply Heq, E | discriminate H].
Qed.

Lemma firstn_add_skipn {A : Type} (a b : nat) (l : list A) :
  firstn (a + b) l = firstn a l ++ firstn b (skipn a l).
Proof.
  revert l. induction a as [| a IH]; intros l; [reflexivity |].
  destruct l as [| x l]; [cbn; rewrite firstn_nil; reflexivity |].
  cbn. rewrite IH. reflexivity.
Qed.

(** Consecutive slices of [n] items put end to end. *)
Lemma concat_firstn_skipn {A : Type} (l : list A) (n k : nat) :
  List.concat (map (fun i => firstn n (skipn (i * n) l)) (seq 0 k))
  = firstn (k * n) l.
Proof.
  induction k as [| k IH]; [reflexivity |].
  rewrite seq_S, map_app, List.concat_app, IH.
  cbn [map List.concat Nat.add]. rewrite app_nil_r.
  replace (S k * n)%nat with (k * n + n)%nat by lia.
  symmetry. apply firstn_add_skipn.
Qed.

(** X16.  With a page size that is a positive integer the pages
    [0 .. totalPages - 1] cut the data exactly: their slices, put end to
    end in page order, are the data, nothing lost, nothing twice.  (A
    fraction for [pageSize] is outside this statement: [slice] truncates
    its bounds.) *)
Theorem pages_partition_data (s : State) (t : Z) :
  0 < pageSize ->
  totalPages data pageSize = Int t ->
  visiblePages s = all_pages (Z.to_nat t) ->
  List.concat (map items (paginatedChunks data pageSize s)) = data.
Proof.
  intros Hp Ht Hv.
  destruct (totalPages_pos data pageSize Hp) as [t' [Ht' [_ Hub]]].
  rewrite Ht in Ht'. injection Ht' as <-.
  unfold paginatedChunks. rewrite Hv. unfold all_pages.
  rewrite !map_map. cbn [items to_num mul add].
  rewrite (map_ext _ (fun i => firstn (Z.to_nat pageSize)
                                 (skipn (i * Z.to_nat pageSize) data))).
  - rewrite concat_firstn_skipn. apply firstn_all2.
    unfold JS.length in Hub. nia.
  - intros i. rewrite slice_page by lia. f_equal. f_equal. nia.
Qed.

Lemma slice_page_length (t i : Z) :
  0 < pageSize ->
  totalPages data pageSize = Int t ->
  0 <= i < t ->
  1 <= JS.length (slice data (Int (i * pageSize)) (Int (i * pageSize + pageSize)))
    <= pageSize /\
  (i < t - 1 ->
   JS.length (slice data (Int (i * pageSize)) (Int (i * pageSize + pageSize)))
   = pageSize).
Proof.
  intros Hp Ht Hi.
  destruct (totalPages_pos data pageSize Hp) as [t' [Ht' [Hlb Hub]]].
  rewrite Ht in Ht'. injection Ht' as <-.
  rewrite slice_page by lia.
  unfold JS.length in *. rewrite length_firstn, length_skipn.
  split; [nia |]. intros Hlast. nia.
Qed.

(** X17.  With a page size that is a positive integer every page before
    the last has exactly [pageSize] items, and the last page has at least
    one and at most [pageSize].  (Not so for a fraction, which [slice]
    truncates.) *)
Theorem page_lengths (s : State) (t i : Z) (ch : Chunk T) :
  0 < pageSize ->
  totalPages data pageSize = Int t ->
  In ch (paginatedChunks data pageSize s) ->
  page ch = Num (Int i) ->
  0 <= i < t ->
  1 <= JS.length (items ch) <= pageSize /\
  (i < t - 1 -> JS.length (items ch) = pageSize).
Proof.
  intros Hp Ht Hin Hpage Hi.
  unfold paginatedChunks in Hin. apply in_map_iff in Hin.
  destruct Hin as [v [<- _]]. cbn [page items] in *. subst v.
  cbn [to_num mul add]. apply (slice_page_length t i Hp Ht Hi).
Qed.

(** X18.  With a page size that is a positive integer and at least two
    pages, every render of every run shows two pages that exist: the first
    with exactly [pageSize] items, the second with at least one, and
    together the [2 * pageSize] items (or what is left of the data) from
    item [low * pageSize] on.  (Not so for a fraction for [pageSize].) *)
Theorem rendered_pages_exist (t : Z) (es : list Event) (w : option Wrapper) :
  0 < pageSize ->
  totalPages data pageSize = Int t -> 2 <= t ->
  exists low items0 items1,
    paginatedChunks data pageSize (state (run data pageSize es (mount w)))
    = [mkChunk (Num (Int low)) items0; mkChunk (Num (Int (low + 1))) items1] /\
    0 <= low /\ low + 1 < t /\
    JS.length items0 = pageSize /\
    1 <= JS.length items1 <= pageSize /\
    items0 ++ items1
    = firstn (Z.to_nat (2 * pageSize)) (skipn (Z.to_nat (low * pageSize)) data).
Proof.
  intros Hp Ht Hge.
  destruct (run_within data pageSize t es w Ht) as [[low [Hw [H0 Hb]]] _].
  set (s := state (run data pageSize es (mount w))) in *.
  assert (E : paginatedChunks data pageSize s
              = [ mkChunk (Num (Int low))
                    (slice data (Int (low * pageSize))
                       (Int (low * pageSize + pageSize)));
                  mkChunk (Num (Int (low + 1)))
                    (slice data (Int ((low + 1) * pageSize))
                       (Int ((low + 1) * pageSize + pageSize))) ]).
  { unfold paginatedChunks. rewrite Hw. reflexivity. }
  do 3 eexists. split; [exact E |].
  split; [exact H0 |]. split; [lia |].
  destruct (slice_page_length t low Hp Ht ltac:(lia)) as [_ Hfull].
  destruct (slice_page_length t (low + 1) Hp Ht ltac:(lia)) as [Hsome _].
  split; [apply Hfull; lia |]. split; [exact Hsome |].
  rewrite !slice_page by lia.
  replace (Z.to_nat ((low + 1) * pageSize))
    with (Z.to_nat pageSize + Z.to_nat (low * pageSize))%nat by nia.
  rewrite <- skipn_skipn.
  replace (Z.to_nat (2 * pageSize))
    with (Z.to_nat pageSize + Z.to_nat pageSize)%nat by lia.
  symmetry. apply firstn_add_skipn.
Qed.

End Rendering.

(** ** The further properties on concrete configurations *)

Example cn_example :
  cn [ClassString "a"; ClassArray [ClassString "b"; ClassNull; ClassNumber (Int 3)];
      ClassString ""; ClassNumber (Int 0); ClassFalse;
      ClassArray [ClassArray []; ClassString "c d"]]
  = "a b 3 c d"%string.
Proof. reflexivity. Qed.

Lemma cn_skips_falsy_witness :
  falsy ClassNull = true /\
  cn ([ClassString "a"] ++ ClassNull :: [ClassString "b"])
  = cn ([ClassString "a"] ++ [ClassString "b"]).
Proof.
  split; [reflexivity |].
  exact (cn_skips_falsy [ClassString "a"] [ClassString "b"] ClassNull eq_refl).
Defined.

Lemma retreat_then_advance_witness :
  let c := with_state (set_visiblePages (window 1)) (mount None) in
  visiblePages (state c) = window 1 /\
  canLoadPrev (state c) = true /\
  canLoadNext (seq 0 100) 20 (state (loadPrevPage_resume c)) = true /\
  visiblePages
    (state (loadNextPage_resume (seq 0 100) 20 (loadPrevPage_resume c)))
  = visiblePages (state c).
Proof.
  intros c.
  split; [reflexivity |]. split; [reflexivity |]. split; [reflexivity |].
  exact (proj1 (retreat_then_advance (seq 0 100) 20 c 1
                  eq_refl eq_refl eq_refl)).
Defined.

Lemma advance_n_times_witness :
  totalPages (seq 0 100) 20 = Int 5 /\
  visiblePages (state (mount None)) = window 0 /\
  0 + 2 <= 5 /\
  visiblePages
    (state (Nat.iter 10 (loadNextPage_resume (seq 0 100) 20) (mount None)))
  = window 3.
Proof.
  split; [reflexivity |]. split; [reflexivity |]. split; [lia |].
  exact (advance_n_times (seq 0 100) 20 (mount None) 5 0 10
           eq_refl eq_refl ltac:(lia)).
Defined.

Lemma advance_unbounded_zero_pageSize_witness :
  0 = 0 /\ [7%nat] <> [] /\
  visiblePages (state (mount None)) = window 0 /\
  - 2 ^ 53 <= 0 /\ 0 + Z.of_nat 3 + 1 <= 2 ^ 53 /\
  visiblePages (state (Nat.iter 3 (loadNextPage_resume [7%nat] 0) (mount None)))
  = window 3.
Proof.
  assert (Hlo : - 2 ^ 53 <= 0) by (vm_compute; discriminate).
  assert (Hhi : 0 + Z.of_nat 3 + 1 <= 2 ^ 53) by (vm_compute; discriminate).
  split; [reflexivity |]. split; [discriminate |]. split; [reflexivity |].
  split; [exact Hlo |]. split; [exact Hhi |].
  exact (advance_unbounded_zero_pageSize [7%nat] 0 (mount None) 0 3
           eq_refl ltac:(discriminate) eq_refl Hlo Hhi).
Defined.

Lemma retreat_n_times_witness :
  let c := with_state (set_visiblePages (window 3)) (mount None) in
  0 <= 3 /\
  visiblePages (state c) = window 3 /\
  visiblePages (state (Nat.iter 5 loadPrevPage_resume c)) = window 0.
Proof.
  intros c. split; [lia |]. split; [reflexivity |].
  exact (retreat_n_times c 3 5 ltac:(lia) eq_refl).
Defined.

Lemma window_within_pages_witness :
  totalPages (seq 0 100) 20 = Int 5 /\ 2 <= 5 /\
  exists low,
    visiblePages
      (state (run (seq 0 100) 20 [BottomObserver true; Timer 0] (mount None)))
    = window low /\
    0 <= low /\ low + 1 <= 5 - 1.
Proof.
  split; [reflexivity |]. split; [lia |].
  exact (window_within_pages (seq 0 100) 20 5
           [BottomObserver true; Timer 0] None eq_refl ltac:(lia)).
Defined.

Lemma scrollToPage_within_pages_witness :
  totalPages (seq 0 100) 20 = Int 5 /\
  (scrollToPage
     (state (run (seq 0 100) 20 [BottomObserver true; Timer 0] (mount None)))
   = None \/
   exists p,
     scrollToPage
       (state (run (seq 0 100) 20 [BottomObserver true; Timer 0] (mount None)))
     = Some (Int p) /\
     1 <= p <= 5 - 2).
Proof.
  split; [reflexivity |].
  exact (scrollToPage_within_pages (seq 0 100) 20 5
           [BottomObserver true; Timer 0] None eq_refl).
Defined.

Lemma window_fixed_without_next_page_witness :
  canLoadNext (seq 0 15) 20 initialState = false /\
  visiblePages
    (state (run (seq 0 15) 20 [BottomObserver true; TopObserver true; Timer 0]
              (mount None)))
  = window 0.
Proof.
  split; [reflexivity |].
  exact (proj1 (window_fixed_without_next_page (seq 0 15) 20
                  [BottomObserver true; TopObserver true; Timer 0] None
                  eq_refl)).
Defined.

Lemma scroll_anchor_skipped_witness :
  let c := with_state (setScrollToPage (Some (Int 5))) (mount None) in
  let layout := fun _ : value => Some (mkElement 100 30) in
  visiblePages (state c) = window 0 /\
  (exists p, scrollToPage (state c) = Some (Int p) /\ p <> 0 /\ p <> 0 + 1) /\
  commit (seq 0 100) 20 layout c
  = mkInstance (state c) (state c) (pending c) (scrollWrapper c).
Proof.
  intros c layout. split; [reflexivity |].
  split; [exists 5; split; [reflexivity | lia] |].
  apply (scroll_anchor_skipped (seq 0 100) 20 c 0 layout eq_refl).
  right. exists 5. split; [reflexivity |]. left. lia.
Defined.

Lemma pages_partition_data_witness :
  0 < 20 /\
  totalPages (seq 0 45) 20 = Int 3 /\
  visiblePages (set_visiblePages (all_pages 3) initialState) = all_pages 3 /\
  List.concat
    (map items
       (paginatedChunks (seq 0 45) 20
          (set_visiblePages (all_pages 3) initialState)))
  = seq 0 45.
Proof.
  split; [lia |]. split; [reflexivity |]. split; [reflexivity |].
  exact (pages_partition_data (seq 0 45) 20
           (set_visiblePages (all_pages 3) initialState) 3
           ltac:(lia) eq_refl eq_refl).
Defined.

Lemma page_lengths_witness :
  let s := set_visiblePages (window 1) initialState in
  let ch := mkChunk (Num (Int 2)) (seq 40 5) in
  0 < 20 /\
  totalPages (seq 0 45) 20 = Int 3 /\
  In ch (paginatedChunks (seq 0 45) 20 s) /\
  page ch = Num (Int 2) /\
  0 <= 2 < 3 /\
  1 <= JS.length (items ch) <= 20.
Proof.
  intros s ch.
  assert (Hin : In ch (paginatedChunks (seq 0 45) 20 s))
    by (right; left; reflexivity).
  split; [lia |]. split; [reflexivity |]. split; [exact Hin |].
  split; [reflexivity |]. split; [lia |].
  exact (proj1 (page_lengths (seq 0 45) 20 s 3 2 ch
                  ltac:(lia) eq_refl Hin eq_refl ltac:(lia))).
Defined.

Lemma rendered_pages_exist_witness :
  0 < 20 /\ totalPages (seq 0 100) 20 = Int 5 /\ 2 <= 5 /\
  exists low items0 items1,
    paginatedChunks (seq 0 100) 20
      (state (run (seq 0 100) 20 [BottomObserver true; Timer 0] (mount None)))
    = [mkChunk (Num (Int low)) items0; mkChunk (Num (Int (low + 1))) items1] /\
    0 <= low /\ low + 1 < 5 /\
    JS.length items0 = 20 /\
    1 <= JS.length items1 <= 20 /\
    items0 ++ items1
    = firstn (Z.to_nat (2 * 20)) (skipn (Z.to_nat (low * 20)) (seq 0 100)).
Proof.
  split; [lia |]. split; [reflexivity |]. split; [lia |].
  exact (rendered_pages_exist (seq 0 100) 20 5
           [BottomObserver true; Timer 0] None ltac:(lia) eq_refl ltac:(lia)).
Defined.

(** ** The loading indicators *)

Section Indicators.

Context {T : Type}.
Variable data : list T.
Variable pageSize : Z.

(** X19.  In every run a loading indicator is rendered only while a
    handler is waiting on its timer, the one for the previous page only
    when the window is not the first one, and the one for the next page
    only when [canLoadNext] holds of the state rendered. *)
Theorem loading_indicators_shown (es : list Event) (w : option Wrapper) :
  let c := run data pageSize es (mount w) in
  exists v low,
    BidirectionalInfiniteScroll data pageSize (state c) = Normal v /\
    visiblePages (state c) = window low /\
    (loadingPreviousShown v = true -> pending c <> [] /\ 0 < low) /\
    (loadingNextShown v = true ->
       pending c <> [] /\ canLoadNext data pageSize (state c) = true /\
       forall t, totalPages data pageSize = Int t -> low + 1 < t - 1).
Proof.
  intros c.
  destruct (run_consecutive data pageSize es (mount w)) as [low [_ Hw]].
  { exists 0. split; [lia | reflexivity]. }
  fold c in Hw.
  pose proof (waiting_handler_when_loading data pageSize es w) as Hl.
  fold c in Hl.
  eexists. exists low. split; [reflexivity |]. split; [exact Hw |].
  cbn [loadingPreviousShown loadingNextShown]. split; intros H;
    apply andb_prop in H; destruct H as [Hload Hcan].
  - split; [exact (Hl Hload) |].
    rewrite (canLoadPrev_pair _ _ _ Hw) in Hcan. apply Z.ltb_lt. exact Hcan.
  - split; [exact (Hl Hload) |]. split; [exact Hcan |].
    intros t Ht. rewrite (canLoadNext_pair _ _ _ _ _ Hw), Ht in Hcan.
    cbn [sub add neg] in Hcan. rewrite lt_Int in Hcan.
    apply Z.ltb_lt in Hcan. lia.
Qed.

End Indicators.
